(** * Nexto: freshness-gated insight fetcher and resilient generator

    A shallow embedding of the server actions ([actions/interview.js],
    [actions/cover-letter.js], the dashboard and user actions) and of the
    weekly Inngest job, followed by the properties of the specification
    that were checked against them.

    Conventions of the embedding.
    - A JavaScript string is a Rocq [string] read as a sequence of code
      units U+0000..U+00FF.
    - A timestamp is a [Z], milliseconds since the epoch; the clock only
      moves when the code sleeps.
    - The identity provider, the text generator, [JSON.parse], number
      formatting and [checkUser] are external: they are variables of the
      section.  The generator is an oracle indexed by the number of calls
      made so far.
    - The persistent store is a set of tables held as lists in insertion
      order; it keeps whatever value is written to a column and knows the
      attributes of an InsightRecord.
    - Every effect (identity lookup, store call, generator call, sleep) is
      appended to a journal, so that "nothing happened before" can be
      stated. [console.log] and [console.error] are not recorded. *)

From Stdlib Require Import String Ascii List ZArith QArith Bool Lia DecimalString.
From Stdlib Require Import Sorted Permutation.
Import ListNotations.
Local Open Scope string_scope.
Local Open Scope list_scope.
Local Open Scope Z_scope.

Set Implicit Arguments.
Set Warnings "-register-all".

(* ------------------------------------------------------------------ *)
(** ** JavaScript values *)

Inductive JsValue : Type :=
| JUndefined
| JNull
| JBool (b : bool)
| JNum (q : Q)
| JStr (s : string)
| JArr (items : list JsValue)
| JObj (fields : list (string * JsValue))
| JBuiltin (name : string).   (* a built-in reached through a prototype *)

(** Exceptions. [status] is the [err.status] the retry loop inspects. *)
Inductive ErrorKind := KError | KTypeError | KSyntaxError | KApiError | KStoreError.

Record JsError := mkError {
  kind : ErrorKind;
  message : string;
  status : option Z
}.

Definition Error_ (msg : string) : JsError := mkError KError msg None.
Definition TypeError (msg : string) : JsError := mkError KTypeError msg None.
Definition SyntaxError (msg : string) : JsError := mkError KSyntaxError msg None.
Definition StoreError (msg : string) : JsError := mkError KStoreError msg None.

Inductive Outcome (A : Type) : Type :=
| Returned (a : A)
| Thrown (e : JsError).
Arguments Returned {A} a.
Arguments Thrown {A} e.

(** ToBoolean. *)
Definition truthy (v : JsValue) : bool :=
  match v with
  | JUndefined | JNull => false
  | JBool b => b
  | JNum q => negb (Qeq_bool q 0)
  | JStr s => negb (s =? "")%string
  | JArr _ | JObj _ | JBuiltin _ => true
  end.

(** [a || b] *)
Definition or_else (a b : JsValue) : JsValue := if truthy a then a else b.

(** [a === b] for values that share no object reference (two values
    deserialised separately): arrays and objects are never identical. *)
Definition strict_eq (a b : JsValue) : bool :=
  match a, b with
  | JUndefined, JUndefined => true
  | JNull, JNull => true
  | JBool x, JBool y => Bool.eqb x y
  | JNum x, JNum y => Qeq_bool x y
  | JStr x, JStr y => (x =? y)%string
  | _, _ => false
  end.

Fixpoint assoc (k : string) (fs : list (string * JsValue)) : option JsValue :=
  match fs with
  | [] => None
  | (k', v) :: rest => if (k =? k')%string then Some v else assoc k rest
  end.

(** [v.name] for a property name that no built-in prototype defines
    ([demandLevel], [questions], [tip], ...): an own property of an object,
    [undefined] on any other non-nullish value, a TypeError on [null] and
    [undefined]. *)
Definition field (v : JsValue) (name : string) : Outcome JsValue :=
  match v with
  | JUndefined =>
      Thrown (TypeError ("Cannot read properties of undefined (reading '" ++ name ++ "')"))
  | JNull =>
      Thrown (TypeError ("Cannot read properties of null (reading '" ++ name ++ "')"))
  | JObj fs => Returned (match assoc name fs with Some x => x | None => JUndefined end)
  | _ => Returned JUndefined
  end.

(** The property names of [Object.prototype]; each is bound to a function,
    [__proto__] to the prototype object itself. *)
Definition Object_prototype : list string :=
  ["constructor"; "__defineGetter__"; "__defineSetter__"; "hasOwnProperty";
   "__lookupGetter__"; "__lookupSetter__"; "isPrototypeOf";
   "propertyIsEnumerable"; "toString"; "valueOf"; "__proto__";
   "toLocaleString"].

Definition mem_string (s : string) (l : list string) : bool :=
  existsb (String.eqb s) l.

(** [literal[key]] on an object literal with the given own properties:
    own properties first, then the prototype chain. *)
Definition literal_get (own : list (string * JsValue)) (key : string) : JsValue :=
  match assoc key own with
  | Some v => v
  | None => if mem_string key Object_prototype then JBuiltin key else JUndefined
  end.

(* ------------------------------------------------------------------ *)
(** ** Strings *)

Definition is_space (c : ascii) : bool :=
  let n := nat_of_ascii c in
  ((9 <=? n) && (n <=? 13) || (n =? 32) || (n =? 160))%nat.

Fixpoint trimStart (s : string) : string :=
  match s with
  | String c s' => if is_space c then trimStart s' else s
  | EmptyString => EmptyString
  end.

Fixpoint rev_string (acc s : string) : string :=
  match s with
  | EmptyString => acc
  | String c s' => rev_string (String c acc) s'
  end.

Definition trimEnd (s : string) : string :=
  rev_string "" (trimStart (rev_string "" s)).

(** [String.prototype.trim] *)
Definition trim (s : string) : string := trimEnd (trimStart s).

Fixpoint join (sep : string) (l : list string) : string :=
  match l with
  | [] => ""
  | [x] => x
  | x :: rest => x ++ sep ++ join sep rest
  end.

(** Upper-casing of one code unit of the Latin-1 range.  [a-z] and the
    accented letters move down by 32, sharp s becomes "SS".  The micro sign
    (181) and y-diaeresis (255) have their capitals outside the range and
    are left as they are: every allowed enum value is plain ASCII, so a
    string holding one of them is no member of an allowed set either way. *)
Definition upper_unit (c : ascii) : string :=
  let n := nat_of_ascii c in
  if ((97 <=? n) && (n <=? 122))%nat then String (ascii_of_nat (n - 32)) ""
  else if (n =? 223)%nat then "SS"
  else if ((224 <=? n) && (n <=? 254) && negb (n =? 247))%nat
       then String (ascii_of_nat (n - 32)) ""
  else String c "".

(** [String.prototype.toUpperCase] *)
Fixpoint toUpperCase (s : string) : string :=
  match s with
  | EmptyString => EmptyString
  | String c s' => upper_unit c ++ toUpperCase s'
  end.

Definition backtick : ascii := ascii_of_nat 96.
Definition fence : string := String backtick (String backtick (String backtick "")).
Definition newline : string := String (ascii_of_nat 10) "".

(** Length of the match of the fence pattern at the head of [s], if any.
    [with_newline] tells the job's pattern, a fence followed by an optional
    [json] and an optional line feed, from the dashboard's, a fence
    followed by an optional [json]. Both options are greedy. *)
Definition fence_match (with_newline : bool) (s : string) : option nat :=
  if prefix fence s then
    let after := substring 3 (String.length s - 3) s in
    let n1 := if prefix "json" after then 7%nat else 3%nat in
    let after1 := substring n1 (String.length s - n1) s in
    Some (if with_newline && prefix newline after1 then S n1 else n1)
  else None.

(** [s.replace(pattern, "")] with the global flag: leftmost matches,
    left to right, without overlap. [skip] counts the code units of the
    current match still to drop. *)
Fixpoint strip_fences_from (with_newline : bool) (skip : nat) (s : string) : string :=
  match s with
  | EmptyString => EmptyString
  | String c s' =>
      match skip with
      | S k => strip_fences_from with_newline k s'
      | O =>
          match fence_match with_newline s with
          | Some n => strip_fences_from with_newline (Nat.pred n) s'
          | None => String c (strip_fences_from with_newline 0 s')
          end
      end
  end.

Definition strip_fences (with_newline : bool) (s : string) : string :=
  strip_fences_from with_newline 0 s.

(* ------------------------------------------------------------------ *)
(** ** Records of the store *)

Definition Id := nat.

Record User := mkUser {
  user_id : Id;
  clerkUserId : string;
  user_industry : option string;
  experience : option Z;
  bio : option string;
  skills : list string
}.

(** The payload of an InsightRecord: the seven generator-defined columns. *)
Record Payload := mkPayload {
  salaryRanges : JsValue;
  growthRate : JsValue;
  demandLevel : JsValue;
  topSkills : JsValue;
  marketOutlook : JsValue;
  keyTrends : JsValue;
  recommendedSkills : JsValue
}.

Record IndustryInsight := mkInsight {
  insight_id : Id;
  industry : string;
  payload : Payload;
  lastUpdated : Z;
  nextUpdate : Z
}.

Record QuestionResult := mkQuestionResult {
  qr_question : JsValue;
  qr_answer : JsValue;
  qr_userAnswer : JsValue;
  isCorrect : bool;
  qr_explanation : JsValue
}.

Record Assessment := mkAssessment {
  assessment_id : Id;
  assessment_userId : Id;
  quizScore : JsValue;
  questions : list QuestionResult;
  category : string;
  improvementTip : JsValue;
  assessment_createdAt : Z
}.

Record CoverLetter := mkCoverLetter {
  letter_id : Id;
  content : JsValue;
  jobDescription : string;
  companyName : string;
  jobTitle : string;
  letter_status : string;
  letter_userId : Id;
  letter_createdAt : Z
}.

Record Store := mkStore {
  users : list User;
  industryInsights : list IndustryInsight;
  assessments : list Assessment;
  coverLetters : list CoverLetter;
  next_id : Id
}.

(** What a write to the insight table names. [w_lastUpdated = None] when
    the write does not name [lastUpdated]; [w_other] lists the attribute
    names it gives that an InsightRecord does not have. *)
Record InsightWrite := mkInsightWrite {
  w_payload : Payload;
  w_nextUpdate : Z;
  w_lastUpdated : option Z;
  w_other : list string
}.

(** The argument of the profile form and of the cover-letter form. *)
Record ProfileData := mkProfileData {
  data_industry : string;
  data_experience : option Z;
  data_bio : option string;
  data_skills : list string
}.

Record LetterData := mkLetterData {
  data_jobTitle : string;
  data_companyName : string;
  data_jobDescription : string
}.

(** The template literals sent to the generator, one constructor per
    template, carrying the interpolated values. *)
Inductive Prompt :=
| QuizPrompt (industry : option string)
| TipPrompt (industry : option string) (wrongQuestionsText : string)
| CoverLetterPrompt (data : LetterData) (industry : option string)
    (experience : option Z) (skills : string) (bio : option string)
| InsightsPrompt (industry : option string)
| WeeklyInsightsPrompt (industry : string).

(* ------------------------------------------------------------------ *)
(** ** Effects *)

Inductive Table := TUser | TIndustryInsight | TAssessment | TCoverLetter.

Inductive Event :=
| Auth
| Read (t : Table)
| Write (t : Table)
| Transaction
| Generate (p : Prompt)
| Sleep (ms : Z)
| Revalidate (path : string).

Record World := mkWorld {
  session : option string;   (* the userId that auth() yields *)
  db : Store;
  clock : Z;                 (* Date.now() *)
  calls : nat;               (* generator calls made so far *)
  journal : list Event       (* oldest first *)
}.

Definition M (A : Type) : Type := World -> Outcome A * World.

Definition ret {A} (a : A) : M A := fun w => (Returned a, w).

Definition throw {A} (e : JsError) : M A := fun w => (Thrown e, w).

Definition bind {A B} (c : M A) (k : A -> M B) : M B :=
  fun w =>
    match c w with
    | (Returned a, w') => k a w'
    | (Thrown e, w') => (Thrown e, w')
    end.

Notation "x <- c1 ;; c2" := (bind c1 (fun x => c2))
  (at level 61, c1 at next level, right associativity).
Notation "c1 ;; c2" := (bind c1 (fun _ => c2))
  (at level 61, right associativity).

(** A pure step that may throw. *)
Definition lift {A} (o : Outcome A) : M A := fun w => (o, w).

(** [try { body } catch (e) { handler e }] *)
Definition try_catch {A} (body : M A) (handler : JsError -> M A) : M A :=
  fun w =>
    match body w with
    | (Returned a, w') => (Returned a, w')
    | (Thrown e, w') => handler e w'
    end.

Definition emit (e : Event) : M unit :=
  fun w => (Returned tt,
            mkWorld (session w) (db w) (clock w) (calls w) (journal w ++ [e])).

Definition get_db : M Store := fun w => (Returned (db w), w).

Definition put_db (s : Store) : M unit :=
  fun w => (Returned tt, mkWorld (session w) s (clock w) (calls w) (journal w)).

(** [Date.now()], also the instant of [new Date()]. *)
Definition Date_now : M Z := fun w => (Returned (clock w), w).

(** [await new Promise((res) => setTimeout(res, ms))] *)
Definition sleep (ms : Z) : M unit :=
  fun w => (Returned tt,
            mkWorld (session w) (db w) (clock w + ms) (calls w)
                    (journal w ++ [Sleep ms])).

(** [const { userId } = await auth()] *)
Definition auth : M (option string) :=
  emit Auth ;; (fun w => (Returned (session w), w)).

(** [!userId] *)
Definition no_identity (userId : option string) : bool :=
  match userId with
  | None => true
  | Some s => (s =? "")%string
  end.

(** What [new] can be applied to in the sources. *)
Inductive Callee := The_Date | The_Date_now.

(** [new callee(args)] for a timestamp argument list. [Date] is a
    constructor; [Date.now] is a plain built-in function without a
    [[Construct]] method. *)
Definition construct (callee : Callee) (args : list Z) : M Z :=
  match callee with
  | The_Date =>
      match args with
      | [] => Date_now
      | t :: _ => ret t
      end
  | The_Date_now => throw (TypeError "Date.now is not a constructor")
  end.

(** The refresh interval: [7 * 24 * 60 * 60 * 1000]. *)
Definition TTL : Z := 7 * 24 * 60 * 60 * 1000.

(* ------------------------------------------------------------------ *)
(** ** The persistent store *)

Definition find_user (userId : string) (l : list User) : option User :=
  find (fun u => (clerkUserId u =? userId)%string) l.

Definition find_insight (key : string) (l : list IndustryInsight)
  : option IndustryInsight :=
  find (fun r => (industry r =? key)%string) l.

(** The relation behind [include: { industryInsight: true }]: the insight
    whose unique [industry] is the user's. *)
Definition user_insight (s : Store) (u : User) : option IndustryInsight :=
  match user_industry u with
  | Some key => find_insight key (industryInsights s)
  | None => None
  end.

Definition set_users (s : Store) (l : list User) : Store :=
  mkStore l (industryInsights s) (assessments s) (coverLetters s) (next_id s).

Definition set_insights (s : Store) (l : list IndustryInsight) : Store :=
  mkStore (users s) l (assessments s) (coverLetters s) (next_id s).

Definition add_assessment (s : Store) (a : Assessment) : Store :=
  mkStore (users s) (industryInsights s) (assessments s ++ [a])
          (coverLetters s) (S (next_id s)).

Definition add_letter (s : Store) (c : CoverLetter) : Store :=
  mkStore (users s) (industryInsights s) (assessments s)
          (coverLetters s ++ [c]) (S (next_id s)).

Definition set_letters (s : Store) (l : list CoverLetter) : Store :=
  mkStore (users s) (industryInsights s) (assessments s) l (next_id s).

Definition apply_write (r : IndustryInsight) (d : InsightWrite) : IndustryInsight :=
  mkInsight (insight_id r) (industry r) (w_payload d)
            (match w_lastUpdated d with Some t => t | None => lastUpdated r end)
            (w_nextUpdate d).

Definition update_insight (key : string) (d : InsightWrite)
  (l : list IndustryInsight) : list IndustryInsight :=
  map (fun r => if (industry r =? key)%string then apply_write r d else r) l.

(** Modelled from the spec: an InsightRecord has the attributes key,
    payload, lastUpdated and nextUpdate (the schema file is not part of
    the sources); a write that names any other attribute is refused. *)
Definition check_write (d : InsightWrite) : M unit :=
  match w_other d with
  | [] => ret tt
  | name :: _ => throw (StoreError ("Unknown argument " ++ name))
  end.

(** [db.user.findUnique({ where: { clerkUserId: userId } })] *)
Definition db_user_findUnique (userId : string) : M (option User) :=
  emit (Read TUser) ;;
  s <- get_db ;;
  ret (find_user userId (users s)).

(** The same call with [include: { industryInsight: true }]. *)
Definition db_user_findUnique_include (userId : string)
  : M (option (User * option IndustryInsight)) :=
  emit (Read TUser) ;;
  s <- get_db ;;
  ret (match find_user userId (users s) with
       | Some u => Some (u, user_insight s u)
       | None => None
       end).

(** [tx.user.update({ where: { clerkUserId: userId }, data })] *)
Definition db_user_update (userId : string) (data : ProfileData) : M User :=
  emit (Write TUser) ;;
  s <- get_db ;;
  match find_user userId (users s) with
  | None => throw (StoreError "Record to update not found.")
  | Some u =>
      let u' := mkUser (user_id u) (clerkUserId u) (Some (data_industry data))
                       (data_experience data) (data_bio data) (data_skills data) in
      put_db (set_users s
                (map (fun x => if (clerkUserId x =? userId)%string then u' else x)
                     (users s))) ;;
      ret u'
  end.

(** [db.industryInsight.findMany(...)] *)
Definition db_industryInsight_findMany : M (list IndustryInsight) :=
  emit (Read TIndustryInsight) ;;
  s <- get_db ;;
  ret (industryInsights s).

(** [db.industryInsight.findUnique({ where: { industry } })] *)
Definition db_industryInsight_findUnique (key : string) : M (option IndustryInsight) :=
  emit (Read TIndustryInsight) ;;
  s <- get_db ;;
  ret (find_insight key (industryInsights s)).

Definition update_existing (key : string) (d : InsightWrite) : M IndustryInsight :=
  s <- get_db ;;
  match find_insight key (industryInsights s) with
  | None => throw (StoreError "Record to update not found.")
  | Some r =>
      put_db (set_insights s (update_insight key d (industryInsights s))) ;;
      ret (apply_write r d)
  end.

(** Modelled from the spec: [lastUpdated] is a timestamp of every
    InsightRecord (the schema file is not part of the sources); a create
    that names none takes the instant of creation.  [connect] is the user
    bound to the new record through [users: { connect: { id } }]. *)
Definition create_new (key : string) (d : InsightWrite) (connect : option Id)
  : M IndustryInsight :=
  s <- get_db ;;
  now <- Date_now ;;
  match find_insight key (industryInsights s) with
  | Some _ => throw (StoreError "Unique constraint failed on the fields: (industry)")
  | None =>
      let r := mkInsight (next_id s) key (w_payload d)
                         (match w_lastUpdated d with Some t => t | None => now end)
                         (w_nextUpdate d) in
      let bound :=
        match connect with
        | None => users s
        | Some uid =>
            map (fun u => if (user_id u =? uid)%nat
                          then mkUser (user_id u) (clerkUserId u) (Some key)
                                      (experience u) (bio u) (skills u)
                          else u) (users s)
        end in
      put_db (mkStore bound (industryInsights s ++ [r]) (assessments s)
                      (coverLetters s) (S (next_id s))) ;;
      ret r
  end.

(** [db.industryInsight.update({ where: { industry }, data })] *)
Definition db_industryInsight_update (key : string) (d : InsightWrite)
  : M IndustryInsight :=
  emit (Write TIndustryInsight) ;;
  check_write d ;;
  update_existing key d.

(** [tx.industryInsight.create({ data })] *)
Definition db_industryInsight_create (key : string) (d : InsightWrite)
  : M IndustryInsight :=
  emit (Write TIndustryInsight) ;;
  check_write d ;;
  create_new key d None.

(** [db.industryInsight.upsert({ where: { industry }, update, create })] *)
Definition db_industryInsight_upsert (key : option string)
  (update create : InsightWrite) (connect : Id) : M IndustryInsight :=
  emit (Write TIndustryInsight) ;;
  check_write update ;;
  check_write create ;;
  match key with
  | None => throw (StoreError "Argument industry must not be null")
  | Some k =>
      s <- get_db ;;
      match find_insight k (industryInsights s) with
      | Some _ => update_existing k update
      | None => create_new k create (Some connect)
      end
  end.

(** [db.assessment.create({ data })] *)
Definition db_assessment_create (userId : Id) (score : JsValue)
  (results : list QuestionResult) (cat : string) (tip : JsValue) : M Assessment :=
  emit (Write TAssessment) ;;
  s <- get_db ;;
  now <- Date_now ;;
  let a := mkAssessment (next_id s) userId score results cat tip now in
  put_db (add_assessment s a) ;;
  ret a.

Fixpoint insert_by {A} (before : A -> A -> bool) (x : A) (l : list A) : list A :=
  match l with
  | [] => [x]
  | y :: rest => if before y x then y :: insert_by before x rest else x :: l
  end.

(** [orderBy]: a stable insertion sort; [before y x] keeps [y] ahead of a
    later row [x]. *)
Definition order_by {A} (before : A -> A -> bool) (l : list A) : list A :=
  fold_left (fun acc x => insert_by before x acc) l [].

(** [db.assessment.findMany({ where: { userId }, orderBy: { createdAt: "asc" } })] *)
Definition db_assessment_findMany (userId : Id) : M (list Assessment) :=
  emit (Read TAssessment) ;;
  s <- get_db ;;
  ret (order_by (fun y x => assessment_createdAt y <=? assessment_createdAt x)
         (filter (fun a => (assessment_userId a =? userId)%nat) (assessments s))).

(** [db.coverLetter.create({ data })] *)
Definition db_coverLetter_create (text : JsValue) (data : LetterData)
  (st : string) (userId : Id) : M CoverLetter :=
  emit (Write TCoverLetter) ;;
  s <- get_db ;;
  now <- Date_now ;;
  let c := mkCoverLetter (next_id s) text (data_jobDescription data)
             (data_companyName data) (data_jobTitle data) st userId now in
  put_db (add_letter s c) ;;
  ret c.

(** [db.coverLetter.findMany({ where: { userId }, orderBy: { createdAt: "desc" } })] *)
Definition db_coverLetter_findMany (userId : Id) : M (list CoverLetter) :=
  emit (Read TCoverLetter) ;;
  s <- get_db ;;
  ret (order_by (fun y x => letter_createdAt x <=? letter_createdAt y)
         (filter (fun c => (letter_userId c =? userId)%nat) (coverLetters s))).

Definition letter_matches (id userId : Id) (c : CoverLetter) : bool :=
  ((letter_id c =? id) && (letter_userId c =? userId))%nat.

(** [db.coverLetter.findUnique({ where: { id, userId } })] *)
Definition db_coverLetter_findUnique (id userId : Id) : M (option CoverLetter) :=
  emit (Read TCoverLetter) ;;
  s <- get_db ;;
  ret (find (letter_matches id userId) (coverLetters s)).

(** [db.coverLetter.delete({ where: { id, userId } })] *)
Definition db_coverLetter_delete (id userId : Id) : M CoverLetter :=
  emit (Write TCoverLetter) ;;
  s <- get_db ;;
  match find (letter_matches id userId) (coverLetters s) with
  | None => throw (StoreError "Record to delete does not exist.")
  | Some c =>
      put_db (set_letters s
                (filter (fun x => negb (letter_matches id userId x)) (coverLetters s))) ;;
      ret c
  end.

(** [db.$transaction(body)]: all of the body's writes, or none. *)
Definition db_transaction {A} (body : M A) : M A :=
  emit Transaction ;;
  saved <- get_db ;;
  try_catch body (fun e => put_db saved ;; throw e).

(* ------------------------------------------------------------------ *)
(** ** The program *)

Definition outcome_bind {A B} (o : Outcome A) (k : A -> Outcome B) : Outcome B :=
  match o with
  | Returned a => k a
  | Thrown e => Thrown e
  end.

Fixpoint outcome_map {A B} (f : A -> Outcome B) (l : list A) : Outcome (list B) :=
  match l with
  | [] => Returned []
  | x :: rest =>
      outcome_bind (f x) (fun y =>
      outcome_bind (outcome_map f rest) (fun ys => Returned (y :: ys)))
  end.

(** [v.name = ...] in module (strict) code: allowed on objects and arrays,
    a TypeError on a primitive, on [null] and on [undefined]. *)
Definition assignable (v : JsValue) (name : string) : Outcome unit :=
  match v with
  | JObj _ | JArr _ | JBuiltin _ => Returned tt
  | JUndefined | JNull =>
      Thrown (TypeError ("Cannot set properties of null (setting '" ++ name ++ "')"))
  | _ => Thrown (TypeError ("Cannot create property '" ++ name ++ "'"))
  end.

(** [value.toUpperCase()] *)
Definition call_toUpperCase (value : JsValue) : Outcome JsValue :=
  match value with
  | JStr s => Returned (JStr (toUpperCase s))
  | JUndefined | JNull =>
      Thrown (TypeError "Cannot read properties of undefined (reading 'toUpperCase')")
  | _ => Thrown (TypeError "toUpperCase is not a function")
  end.

(** [const normalizeEnum = (value, allowed, fallback) => { ... }] of the
    weekly job. [value?.toUpperCase()] is [undefined] on a nullish value and
    a call on every other one. *)
Definition normalizeEnum (value : JsValue) (allowed : list string)
  (fallback : string) : Outcome JsValue :=
  outcome_bind
    (match value with
     | JUndefined | JNull => Returned JUndefined
     | _ => call_toUpperCase value
     end)
    (fun v =>
       match v with
       | JStr u => Returned (if mem_string u allowed then JStr u else JStr fallback)
       | _ => Returned (JStr fallback)
       end).

(** [const demandLevelMap = { High: "HIGH", Medium: "MEDIUM", Low: "LOW" }] *)
Definition demandLevelMap : list (string * JsValue) :=
  [("High", JStr "HIGH"); ("Medium", JStr "MEDIUM"); ("Low", JStr "LOW")].

(** [const marketOutlookMap = { Positive: ..., Neutral: ..., Negative: ... }] *)
Definition marketOutlookMap : list (string * JsValue) :=
  [("Positive", JStr "POSITIVE"); ("Neutral", JStr "NEUTRAL");
   ("Negative", JStr "NEGATIVE")].

(** [answers[index]] *)
Definition index_get (v : JsValue) (index : nat) : Outcome JsValue :=
  match v with
  | JUndefined | JNull => Thrown (TypeError "Cannot read properties of null")
  | JArr items => Returned (nth index items JUndefined)
  | JStr s =>
      Returned (match String.get index s with
                | Some c => JStr (String c "")
                | None => JUndefined
                end)
  | JObj fs =>
      Returned (match assoc (NilZero.string_of_uint (Nat.to_uint index)) fs with
                | Some x => x
                | None => JUndefined
                end)
  | _ => Returned JUndefined
  end.

(** The fallback of the quiz. *)
Definition placeholder_question : JsValue :=
  JObj [("question", JStr "Fallback question...");
        ("options", JArr [JStr "A"; JStr "B"; JStr "C"; JStr "D"]);
        ("correctAnswer", JStr "A");
        ("explanation", JStr "Error fallback")].

Definition fallback_tip : string :=
  "Keep practicing your technical skills to build confidence!".

(** What the actions answer. *)
Inductive Reply :=
| RValue (v : JsValue)
| RInsight (r : option IndustryInsight)
| RAssessment (a : Assessment)
| RAssessments (l : list Assessment)
| RLetter (c : option CoverLetter)
| RLetters (l : list CoverLetter)
| RProfile (u : User) (r : option IndustryInsight)
| ROnboarding (isOnboarded : bool) (error : option string)
| RPayload (p : Payload).

Section Nexto.

(** The text generator: the outcome of the call number [n] (counted
    from 0 over the whole run) on a prompt: the text of the response, or
    the error the client library throws. *)
Variable generateContent : nat -> Prompt -> Outcome string.

(** [JSON.parse]: the parsed value, or the SyntaxError. *)
Variable JSON_parse : string -> Outcome JsValue.

(** Number::toString. *)
Variable Number_toString : Q -> string.

(** [checkUser] of [lib/checkUser], which is not among the sources. *)
Variable checkUser : M (option User).

(** [await model.generateContent(prompt)], then the text of the response
    ([result.response.text()], or the text of the first part of the first
    candidate in the weekly job). *)
Definition model_generateContent (prompt : Prompt) : M string :=
  emit (Generate prompt) ;;
  (fun w => (generateContent (calls w) prompt,
             mkWorld (session w) (db w) (clock w) (S (calls w)) (journal w))).

(** ToString, for template literals and property keys, on the values
    [JSON.parse] builds. An array prints its elements joined by commas,
    [null] and [undefined] elements as the empty string; an object whose
    own [toString] is not callable has no primitive value. *)
Fixpoint ToString (v : JsValue) : Outcome string :=
  match v with
  | JUndefined => Returned "undefined"
  | JNull => Returned "null"
  | JBool true => Returned "true"
  | JBool false => Returned "false"
  | JNum q => Returned (Number_toString q)
  | JStr s => Returned s
  | JArr items =>
      outcome_bind
        ((fix each (l : list JsValue) : Outcome (list string) :=
            match l with
            | [] => Returned []
            | x :: rest =>
                outcome_bind
                  (match x with
                   | JUndefined | JNull => Returned ""
                   | _ => ToString x
                   end)
                  (fun s => outcome_bind (each rest) (fun ss => Returned (s :: ss)))
            end) items)
        (fun parts => Returned (join "," parts))
  | JObj fs =>
      match assoc "toString" fs with
      | Some _ => Thrown (TypeError "Cannot convert object to primitive value")
      | None => Returned "[object Object]"
      end
  | JBuiltin name =>
      Returned (if (name =? "__proto__")%string then "[object Object]"
                else ("function " ++ name ++ "() { [native code] }")%string)
  end.

(** [if (!userId) throw new Error("Unauthorized")] after [auth()]. *)
Definition require_identity : M string :=
  userId <- auth ;;
  if no_identity userId then throw (Error_ "Unauthorized")
  else match userId with
       | Some uid => ret uid
       | None => throw (Error_ "Unauthorized")
       end.

(** [if (!user) throw new Error("User not found")] after the lookup. *)
Definition require_user (userId : string) : M User :=
  user <- db_user_findUnique userId ;;
  match user with
  | None => throw (Error_ "User not found")
  | Some u => ret u
  end.

(* ---------------------------------------------------------------- *)
(** *** actions/interview.js *)

(** [async function safeGenerate(prompt, retries = 3)] *)
Fixpoint safeGenerate (prompt : Prompt) (retries : nat) : M string :=
  try_catch (model_generateContent prompt)
    (fun err =>
       if match status err with Some s => s =? 404 | None => false end
       then throw (Error_ "Model name is outdated. Try 'gemini-2.5-flash-lite'.")
       else
         match retries with
         | S r =>
             if match status err with Some s => s =? 429 | None => false end
             then sleep 30000 ;; safeGenerate prompt r
             else throw err
         | O => throw err
         end).

(** [export async function generateQuiz()] *)
Definition generateQuiz : M JsValue :=
  userId <- require_identity ;;
  user <- require_user userId ;;
  let prompt := QuizPrompt (user_industry user) in
  try_catch
    (result <- safeGenerate prompt 3 ;;
     quiz <- lift (JSON_parse result) ;;
     lift (field quiz "questions"))
    (fun _ => ret (JArr [placeholder_question])).

(** The callback of [questions.map((q, index) => ({ ... }))]. *)
Definition question_result (answers : JsValue) (index : nat) (q : JsValue)
  : Outcome QuestionResult :=
  outcome_bind (field q "question") (fun question =>
  outcome_bind (field q "correctAnswer") (fun answer =>
  outcome_bind (index_get answers index) (fun userAnswer =>
  outcome_bind (field q "explanation") (fun explanation =>
  Returned (mkQuestionResult question answer userAnswer
              (strict_eq answer userAnswer) explanation))))).

Fixpoint question_results (answers : JsValue) (index : nat) (qs : list JsValue)
  : Outcome (list QuestionResult) :=
  match qs with
  | [] => Returned []
  | q :: rest =>
      outcome_bind (question_result answers index q) (fun r =>
      outcome_bind (question_results answers (S index) rest) (fun rs =>
      Returned (r :: rs)))
  end.

(** [questions.map(...)]: only an array has [map]. *)
Definition map_questions (questions answers : JsValue)
  : Outcome (list QuestionResult) :=
  match questions with
  | JArr qs => question_results answers 0 qs
  | JUndefined | JNull =>
      Thrown (TypeError "Cannot read properties of null (reading 'map')")
  | _ => Thrown (TypeError "questions.map is not a function")
  end.

(** The body of [if (wrongAnswers.length > 0) { ... }]. *)
Definition improvement_tip (user : User) (wrongAnswers : list QuestionResult)
  : M JsValue :=
  lines <- lift (outcome_map
                   (fun q => outcome_bind (ToString (qr_question q))
                               (fun s => Returned ("- " ++ s)%string))
                   wrongAnswers) ;;
  let wrongQuestionsText := join newline lines in
  let improvementPrompt := TipPrompt (user_industry user) wrongQuestionsText in
  try_catch
    (tipResult <- safeGenerate improvementPrompt 3 ;;
     jsonResponse <- lift (JSON_parse tipResult) ;;
     lift (field jsonResponse "tip"))
    (fun _ => ret (JStr fallback_tip)).

(** [export async function saveQuizResult(questions, answers, score)] *)
Definition saveQuizResult (questions answers score : JsValue) : M Assessment :=
  userId <- require_identity ;;
  user <- require_user userId ;;
  questionResults <- lift (map_questions questions answers) ;;
  let wrongAnswers := filter (fun q => negb (isCorrect q)) questionResults in
  improvementTip <-
    (if (0 <? length wrongAnswers)%nat
     then improvement_tip user wrongAnswers
     else ret JNull) ;;
  try_catch
    (db_assessment_create (user_id user) score questionResults "Technical"
                          improvementTip)
    (fun _ => throw (Error_ "Failed to save quiz result")).

(** [export async function getAssessments()] *)
Definition getAssessments : M (list Assessment) :=
  userId <- require_identity ;;
  user <- require_user userId ;;
  try_catch (db_assessment_findMany (user_id user))
    (fun _ => throw (Error_ "Failed to fetch assessments")).

(* ---------------------------------------------------------------- *)
(** *** actions/cover-letter.js *)

(** [export async function generateCoverLetter(data)] *)
Definition generateCoverLetter (data : LetterData) : M CoverLetter :=
  userId <- require_identity ;;
  user <- require_user userId ;;
  let prompt := CoverLetterPrompt data (user_industry user) (experience user)
                  (join ", " (skills user)) (bio user) in
  try_catch
    (responseText <- model_generateContent prompt ;;
     contentString <-
       try_catch
         (parsedData <- lift (JSON_parse responseText) ;;
          coverLetter <- lift (field parsedData "coverLetter") ;;
          if truthy coverLetter then ret coverLetter
          else lift (field parsedData "cover_letter"))
         (fun _ => ret (JStr responseText)) ;;
     db_coverLetter_create contentString data "completed" (user_id user))
    (fun _ => throw (Error_ "Failed to generate cover letter")).



(** [export async function getCoverLetters()] *)
Definition getCoverLetters : M (list CoverLetter) :=
  userId <- require_identity ;;
  user <- require_user userId ;;
  db_coverLetter_findMany (user_id user).

(** [export async function getCoverLetter(id)] *)
Definition getCoverLetter (id : Id) : M (option CoverLetter) :=
  userId <- require_identity ;;
  user <- require_user userId ;;
  db_coverLetter_findUnique id (user_id user).

(** [export async function deleteCoverLetter(id)] *)
Definition deleteCoverLetter (id : Id) : M CoverLetter :=
  userId <- require_identity ;;
  user <- require_user userId ;;
  db_coverLetter_delete id (user_id user).

(* ---------------------------------------------------------------- *)
(** *** The dashboard actions *)

(** [parsed.field = map[parsed.field] || fallback] *)
Definition map_enum (parsed : JsValue) (name : string)
  (map : list (string * JsValue)) (fallback : string) : Outcome JsValue :=
  outcome_bind (field parsed name) (fun raw =>
  outcome_bind (ToString raw) (fun key =>
  outcome_bind (assignable parsed name) (fun _ =>
  Returned (or_else (literal_get map key) (JStr fallback))))).

(** The seven columns read off the parsed document once the two enum
    fields are assigned. *)
Definition payload_of (parsed demand outlook : JsValue) : Outcome Payload :=
  outcome_bind (field parsed "salaryRanges") (fun salaryRanges =>
  outcome_bind (field parsed "growthRate") (fun growthRate =>
  outcome_bind (field parsed "topSkills") (fun topSkills =>
  outcome_bind (field parsed "keyTrends") (fun keyTrends =>
  outcome_bind (field parsed "recommendedSkills") (fun recommendedSkills =>
  Returned (mkPayload salaryRanges growthRate demand topSkills outlook
                      keyTrends recommendedSkills)))))).

(** [export const generateAIInsights = async (industry) => { ... }] *)
Definition generateAIInsights (industry : option string) : M Payload :=
  try_catch
    (result <- model_generateContent (InsightsPrompt industry) ;;
     let text := trim result in
     let text := trim (strip_fences false text) in
     parsed <- lift (JSON_parse text) ;;
     demand <- lift (map_enum parsed "demandLevel" demandLevelMap "MEDIUM") ;;
     outlook <- lift (map_enum parsed "marketOutlook" marketOutlookMap "NEUTRAL") ;;
     lift (payload_of parsed demand outlook))
    (fun error =>
       throw (Error_ ("Failed to generate AI insights: " ++ message error))).

(** The body of [if (!user.industryInsight || isExpired) { ... }]. The
    argument of [upsert] is an object literal: its properties are
    evaluated, in source order, before the store is called. *)
Definition regenerate (user : User) : M IndustryInsight :=
  insights <- generateAIInsights (user_industry user) ;;
  t1 <- Date_now ;;
  update_nextUpdate <- construct The_Date [t1 + TTL] ;;
  update_lastUpdate <- construct The_Date_now [] ;;
  t2 <- Date_now ;;
  create_nextUpdate <- construct The_Date [t2 + TTL] ;;
  create_lastUpdated <- construct The_Date [] ;;
  db_industryInsight_upsert (user_industry user)
    (mkInsightWrite insights update_nextUpdate None ["lastUpdate"])
    (mkInsightWrite insights create_nextUpdate (Some create_lastUpdated) [])
    (user_id user).

(** [export async function getIndustryInsights()] *)
Definition getIndustryInsights : M (option IndustryInsight) :=
  userId <- require_identity ;;
  found <- db_user_findUnique_include userId ;;
  match found with
  | None => throw (Error_ "User not found")
  | Some (user, industryInsight) =>
      isExpired <-
        match industryInsight with
        | Some r => now <- construct The_Date [] ;; ret (nextUpdate r <=? now)
        | None => ret false
        end ;;
      if match industryInsight with None => true | Some _ => false end || isExpired
      then r <- regenerate user ;; ret (Some r)
      else ret industryInsight
  end.

(* ---------------------------------------------------------------- *)
(** *** The user actions *)

(** [export async function updateUser(data)] *)
Definition updateUser (data : ProfileData) : M (User * option IndustryInsight) :=
  userId <- require_identity ;;
  user <- checkUser ;;
  match user with
  | None => throw (Error_ "User registration failed")
  | Some _ =>
      try_catch
        (industryInsight <- db_industryInsight_findUnique (data_industry data) ;;
         insights <-
           match industryInsight with
           | Some _ => ret None
           | None =>
               i <- generateAIInsights (Some (data_industry data)) ;;
               demand <- lift (call_toUpperCase (demandLevel i)) ;;
               outlook <- lift (call_toUpperCase (marketOutlook i)) ;;
               ret (Some (mkPayload (salaryRanges i) (growthRate i) demand
                            (topSkills i) outlook (keyTrends i)
                            (recommendedSkills i)))
           end ;;
         result <-
           db_transaction
             (created <-
                match industryInsight, insights with
                | None, Some i =>
                    t <- Date_now ;;
                    next <- construct The_Date [t + TTL] ;;
                    r <- db_industryInsight_create (data_industry data)
                           (mkInsightWrite i next None []) ;;
                    ret (Some r)
                | _, _ => ret industryInsight
                end ;;
              updatedUser <- db_user_update userId data ;;
              ret (updatedUser, created)) ;;
         emit (Revalidate "/") ;;
         ret result)
        (fun error =>
           throw (Error_ ("Failed to update profile: " ++ message error)))
  end.

(** [export async function getUserOnboardingStatus()] *)
Definition getUserOnboardingStatus : M (bool * option string) :=
  try_catch
    (userId <- auth ;;
     if no_identity userId then ret (false, None)
     else
       match userId with
       | None => ret (false, None)
       | Some uid =>
           user <- db_user_findUnique uid ;;
           ret (match user with
                | Some u =>
                    match user_industry u with
                    | Some i => negb (i =? "")%string
                    | None => false
                    end
                | None => false
                end, None)
       end)
    (fun _ => ret (false, Some "Database connection failed")).

(* ---------------------------------------------------------------- *)
(** *** The weekly job *)

(** Steps 5 and 6 of the loop body: the data written for a parsed
    document. *)
Definition weekly_payload (insights : JsValue) : Outcome Payload :=
  outcome_bind (field insights "demandLevel") (fun raw =>
  outcome_bind (normalizeEnum raw ["HIGH"; "MEDIUM"; "LOW"] "MEDIUM") (fun demand =>
  outcome_bind (assignable insights "demandLevel") (fun _ =>
  outcome_bind (field insights "marketOutlook") (fun raw' =>
  outcome_bind (normalizeEnum raw' ["POSITIVE"; "NEUTRAL"; "NEGATIVE"] "NEUTRAL")
    (fun outlook =>
  outcome_bind (assignable insights "marketOutlook") (fun _ =>
  outcome_bind (payload_of insights demand outlook) (fun p =>
  Returned (mkPayload (or_else (salaryRanges p) (JArr []))
                      (or_else (growthRate p) (JNum 0))
                      (demandLevel p)
                      (or_else (topSkills p) (JArr []))
                      (marketOutlook p)
                      (or_else (keyTrends p) (JArr []))
                      (or_else (recommendedSkills p) (JArr [])))))))))).

(** The body of [for (const { industry } of industries) { ... }];
    [continue] is the early [ret tt]. *)
Definition refresh_industry (industry : string) : M unit :=
  res <- model_generateContent (WeeklyInsightsPrompt industry) ;;
  let text := if (res =? "")%string then "" else res in
  let cleanedText := trim (strip_fences true text) in
  parsed <- try_catch (v <- lift (JSON_parse cleanedText) ;; ret (Some v))
                      (fun _ => ret None) ;;
  match parsed with
  | None => ret tt
  | Some insights =>
      data <- lift (weekly_payload insights) ;;
      now <- construct The_Date [] ;;
      t <- Date_now ;;
      next <- construct The_Date [t + TTL] ;;
      db_industryInsight_update industry
        (mkInsightWrite data next (Some now) []) ;;
      ret tt
  end.

Fixpoint for_each {A} (l : list A) (body : A -> M unit) : M unit :=
  match l with
  | [] => ret tt
  | x :: rest => body x ;; for_each rest body
  end.

(** [export const generateIndustryInsights = inngest.createFunction(...)] *)
Definition generateIndustryInsights : M unit :=
  industries <- db_industryInsight_findMany ;;
  for_each (map industry industries) refresh_industry.

(* ---------------------------------------------------------------- *)
(** *** The interactive operations, as one family: every function the
    three "use server" modules export *)

Inductive Action :=
| GenerateQuiz
| SaveQuizResult (questions answers score : JsValue)
| GetAssessments
| GenerateCoverLetter (data : LetterData)
| GetCoverLetters
| GetCoverLetter (id : Id)
| DeleteCoverLetter (id : Id)
| GetIndustryInsights
| UpdateUser (data : ProfileData)
| GetUserOnboardingStatus
| GenerateAIInsights (industry : option string).   (* exported beside the dashboard action *)

Definition perform (a : Action) : M Reply :=
  match a with
  | GenerateQuiz => v <- generateQuiz ;; ret (RValue v)
  | SaveQuizResult q a s => r <- saveQuizResult q a s ;; ret (RAssessment r)
  | GetAssessments => l <- getAssessments ;; ret (RAssessments l)
  | GenerateCoverLetter d => c <- generateCoverLetter d ;; ret (RLetter (Some c))
  | GetCoverLetters => l <- getCoverLetters ;; ret (RLetters l)
  | GetCoverLetter id => c <- getCoverLetter id ;; ret (RLetter c)
  | DeleteCoverLetter id => c <- deleteCoverLetter id ;; ret (RLetter (Some c))
  | GetIndustryInsights => r <- getIndustryInsights ;; ret (RInsight r)
  | UpdateUser d => r <- updateUser d ;; ret (RProfile (fst r) (snd r))
  | GetUserOnboardingStatus =>
      r <- getUserOnboardingStatus ;; ret (ROnboarding (fst r) (snd r))
  | GenerateAIInsights industry =>
      p <- generateAIInsights industry ;; ret (RPayload p)
  end.

End Nexto.

(* ------------------------------------------------------------------ *)
(** ** Vocabulary of the statements *)

(** The world after the given effects were journalled and nothing else
    changed. *)
Definition logged (events : list Event) (w : World) : World :=
  mkWorld (session w) (db w) (clock w) (calls w) (journal w ++ events).

(** The world after one generator call on [p]. *)
Definition called (p : Prompt) (w : World) : World :=
  mkWorld (session w) (db w) (clock w) (S (calls w)) (journal w ++ [Generate p]).

(** A generator call that fails with status 429. *)
Definition rate_limited (o : Outcome string) : Prop :=
  exists e, o = Thrown e /\ status e = Some 429.

(** The journal of [n] failed attempts, each followed by its backoff. *)
Fixpoint retry_events (p : Prompt) (n : nat) : list Event :=
  match n with
  | O => []
  | S k => Generate p :: Sleep 30000 :: retry_events p k
  end.

(** The world after [n] rate-limited attempts and their backoffs. *)
Definition slept (p : Prompt) (n : nat) (w : World) : World :=
  mkWorld (session w) (db w) (clock w + 30000 * Z.of_nat n)
          (calls w + n) (journal w ++ retry_events p n).

(** The world after [n] rate-limited attempts, their backoffs, and one
    more attempt. *)
Definition after_attempts (p : Prompt) (n : nat) (w : World) : World :=
  called p (slept p n w).

(** The caller is signed in as [userId] and [user] is their row. *)
Definition signed_in (userId : string) (user : User) (w : World) : Prop :=
  session w = Some userId /\ userId <> "" /\
  find_user userId (users (db w)) = Some user.

(** A raw enum value the weekly job can normalise: a string, or nothing. *)
Definition enum_raw (v : JsValue) : bool :=
  match v with
  | JUndefined | JNull | JStr _ => true
  | _ => false
  end.



(** No store call and no generator call among the events. *)
Definition only_identity (events : list Event) : bool :=
  forallb (fun e => match e with Auth => true | _ => false end) events.

(* ------------------------------------------------------------------ *)
(** ** Fixtures: concrete collaborators and worlds *)

Definition unavailable : JsError := mkError KApiError "no response scripted" (Some 503).
Definition too_many_requests : JsError := mkError KApiError "Too Many Requests" (Some 429).
Definition model_not_found : JsError := mkError KApiError "model not found" (Some 404).

(** A generator that answers the call number [n] with the [n]-th entry. *)
Definition scripted (answers : list (Outcome string)) : nat -> Prompt -> Outcome string :=
  fun n _ => nth n answers (Thrown unavailable).

Fixpoint lookup_text (s : string) (table : list (string * JsValue)) : option JsValue :=
  match table with
  | [] => None
  | (k, v) :: rest => if (s =? k)%string then Some v else lookup_text s rest
  end.

(** A parser that knows the listed texts and rejects every other one. *)
Definition parse_table (table : list (string * JsValue)) : string -> Outcome JsValue :=
  fun s => match lookup_text s table with
           | Some v => Returned v
           | None => Thrown (SyntaxError "Unexpected token")
           end.

(** Number formatting for integers. *)
Definition print_integer (q : Q) : string :=
  NilZero.string_of_int (Z.to_int (Qnum q)).

(** A [checkUser] that finds the row of the session. *)
Definition check_session : M (option User) :=
  fun w => (Returned (match session w with
                      | Some uid => find_user uid (users (db w))
                      | None => None
                      end), w).

Definition alice : User :=
  mkUser 1%nat "user_alice" (Some "tech") (Some 3) (Some "Proof engineer") ["Rocq"; "OCaml"].

Definition sample_payload : Payload :=
  mkPayload (JArr []) (JNum 5) (JStr "HIGH") (JArr [JStr "Rocq"])
            (JStr "POSITIVE") (JArr []) (JArr []).

Definition tech_insight : IndustryInsight :=
  mkInsight 2%nat "tech" sample_payload 1000 (1000 + TTL).

Definition empty_store : Store := mkStore [alice] [] [] [] 10%nat.
Definition tech_store : Store := mkStore [alice] [tech_insight] [] [] 10%nat.

(** Alice signed in, no insight stored for her industry. *)
Definition first_visit : World := mkWorld (Some "user_alice") empty_store 5000 0%nat [].

(** Alice signed in, the insight of her industry fresh at instant 5000. *)
Definition fresh_visit : World := mkWorld (Some "user_alice") tech_store 5000 0%nat [].

(** Alice signed in, the insight of her industry stale. *)
Definition stale_visit : World :=
  mkWorld (Some "user_alice") tech_store (1000 + TTL) 0%nat [].

(** Nobody signed in. *)
Definition anonymous_visit : World := mkWorld None tech_store 5000 0%nat [].

Definition quoted (s : string) : string :=
  String (ascii_of_nat 34) s ++ String (ascii_of_nat 34) "".

(** The JSON text of a document that spells its enum values in capitals,
    as the dashboard prompt asks. *)
Definition insight_text : string :=
  "{" ++ quoted "growthRate" ++ ":5," ++ quoted "demandLevel" ++ ":"
      ++ quoted "HIGH" ++ "," ++ quoted "marketOutlook" ++ ":"
      ++ quoted "POSITIVE" ++ "}".
Definition shouting_document : JsValue :=
  JObj [("growthRate", JNum 5); ("demandLevel", JStr "HIGH");
        ("marketOutlook", JStr "POSITIVE")].
Definition letter_text : string := "Dear Hiring Manager,".
Definition letter_form : LetterData := mkLetterData "Engineer" "Acme" "Prove things".

Definition two_questions : JsValue :=
  JArr [JObj [("question", JStr "1 + 1?"); ("correctAnswer", JStr "2")];
        JObj [("question", JStr "2 + 2?"); ("correctAnswer", JStr "4")]].

(** Three subjects for the weekly job. *)
Definition finance_insight : IndustryInsight :=
  mkInsight 3%nat "finance" sample_payload 1000 (1000 + TTL).
Definition health_insight : IndustryInsight :=
  mkInsight 4%nat "health" sample_payload 1000 (1000 + TTL).

Definition sunday : World :=
  mkWorld None (mkStore [alice] [tech_insight; finance_insight; health_insight]
                        [] [] 10%nat)
          (1000 + TTL) 0%nat [].

(** The answer for the first subject, wrapped in a code fence. *)
Definition fenced_text : string :=
  fence ++ "json" ++ newline ++ insight_text ++ newline ++ fence.

Definition bare_document : JsValue := JObj [("growthRate", JNum 2)].



(** The content [generateCoverLetter] stores for a generator text, given
    the parser: the [coverLetter] or [cover_letter] field of the parsed
    value, the raw text when the inner [try] block raises. *)
Definition letter_content (JSON_parse : string -> Outcome JsValue) (text : string)
  : JsValue :=
  match outcome_bind (JSON_parse text) (fun parsedData =>
        outcome_bind (field parsedData "coverLetter") (fun coverLetter =>
        if truthy coverLetter then Returned coverLetter
        else field parsedData "cover_letter")) with
  | Returned v => v
  | Thrown _ => JStr text
  end.

(** The prompt of [generateCoverLetter] for a form and a user. *)
Definition letter_prompt (data : LetterData) (user : User) : Prompt :=
  CoverLetterPrompt data (user_industry user) (experience user)
                    (join ", " (skills user)) (bio user).

(** The row of [user] after [updateUser data]. *)
Definition updated_user (user : User) (data : ProfileData) : User :=
  mkUser (user_id user) (clerkUserId user) (Some (data_industry data))
         (data_experience data) (data_bio data) (data_skills data).

(** Bob, a second user, and a store with letters of both. *)
Definition bob : User :=
  mkUser 5%nat "user_bob" (Some "finance") None None [].

Definition letter_of (id owner : Id) (at_ : Z) : CoverLetter :=
  mkCoverLetter id (JStr "Dear") "desc" "Acme" "Engineer" "completed" owner at_.

Definition old_assessment (id owner : Id) (at_ : Z) : Assessment :=
  mkAssessment id owner (JNum 50) [] "Technical" JNull at_.

Definition office : World :=
  mkWorld (Some "user_alice")
          (mkStore [alice; bob] [tech_insight]
                   [old_assessment 6%nat 1%nat 300; old_assessment 7%nat 5%nat 200;
                    old_assessment 8%nat 1%nat 100]
                   [letter_of 2%nat 1%nat 100; letter_of 3%nat 5%nat 200;
                    letter_of 4%nat 1%nat 300]
                   10%nat)
          5000 0%nat [].

(** A signed-in identity without a row in the user table. *)
Definition stranger_visit : World :=
  mkWorld (Some "user_carol") tech_store 5000 0%nat [].

Definition new_profile : ProfileData :=
  mkProfileData "tech" (Some 4) (Some "Prover") ["Rocq"].

(** A complete document with its enum values capitalised, and its text. *)
Definition capitalised_text : string :=
  "{" ++ quoted "salaryRanges" ++ ":[]," ++ quoted "growthRate" ++ ":5,"
      ++ quoted "demandLevel" ++ ":" ++ quoted "High" ++ ","
      ++ quoted "topSkills" ++ ":[" ++ quoted "Rocq" ++ "],"
      ++ quoted "marketOutlook" ++ ":" ++ quoted "Positive" ++ ","
      ++ quoted "keyTrends" ++ ":[]," ++ quoted "recommendedSkills" ++ ":[]}".
Definition capitalised_document : JsValue :=
  JObj [("salaryRanges", JArr []); ("growthRate", JNum 5);
        ("demandLevel", JStr "High"); ("topSkills", JArr [JStr "Rocq"]);
        ("marketOutlook", JStr "Positive"); ("keyTrends", JArr []);
        ("recommendedSkills", JArr [])].

(** A computation that leaves the store as it found it. *)
Definition keeps_store {A} (c : M A) : Prop :=
  forall w, db (snd (c w)) = db w.

(** A computation that, when it raises, leaves the store as it found it. *)
Definition all_or_nothing {A} (c : M A) : Prop :=
  forall w e w', c w = (Thrown e, w') -> db w' = db w.

(** A computation that always returns. *)
Definition never_raises {A} (c : M A) : Prop :=
  forall w, exists a w', c w = (Returned a, w').

(** The caller has an identity: [userId] is what [auth()] yields. *)
Definition identified (userId : string) (w : World) : Prop :=
  session w = Some userId /\ userId <> "".

(** Two stores with the same subjects: the insight table has the same
    keys and ids in the same order, and the other tables are equal. *)
Definition same_subjects (s s' : Store) : Prop :=
  map industry (industryInsights s') = map industry (industryInsights s) /\
  map insight_id (industryInsights s') = map insight_id (industryInsights s) /\
  users s' = users s /\ assessments s' = assessments s /\
  coverLetters s' = coverLetters s /\ next_id s' = next_id s.

Fixpoint no_backtick (s : string) : bool :=
  match s with
  | EmptyString => true
  | String c s' => negb (Ascii.eqb c backtick) && no_backtick s'
  end.

(** The actions that are meant to read only. *)
Definition read_only (a : Action) : bool :=
  match a with
  | GenerateQuiz | GetAssessments | GetCoverLetters | GetCoverLetter _
  | GetUserOnboardingStatus => true
  | _ => false
  end.

(** The actions that start with the lookup of the caller's row. *)
Definition needs_row (a : Action) : bool :=
  match a with
  | UpdateUser _ | GetUserOnboardingStatus | GenerateAIInsights _ => false
  | _ => true
  end.

Definition plain_json : string := "{" ++ quoted "growthRate" ++ ":2}".

Definition tip_text : string := "{" ++ quoted "tip" ++ ":" ++ quoted "Review addition" ++ "}".
Definition tip_document : JsValue := JObj [("tip", JStr "Review addition")].

Definition retry_once : nat -> Prompt -> Outcome string :=
  scripted [Thrown too_many_requests; Returned "ok"].


(** The own property [name] of a parsed value, [undefined] when it has
    none. *)
Definition own (d : JsValue) (name : string) : JsValue :=
  match d with
  | JObj fs => match assoc name fs with Some v => v | None => JUndefined end
  | _ => JUndefined
  end.

(** An enum field after normalisation, in closed form: the upper-cased
    raw string when that is a member of the allowed set, the default for
    every other string and for a raw value that is no string. *)
Definition normalized_enum (raw : JsValue) (allowed : list string)
  (default : string) : JsValue :=
  match raw with
  | JStr s => if mem_string (toUpperCase s) allowed
              then JStr (toUpperCase s) else JStr default
  | _ => JStr default
  end.

(** The payload the weekly job writes for a parsed document, in closed
    form, column by column: a list column is the document's own value, or
    an empty array when that is absent or falsy; the growth rate is the
    document's own value, or 0; the two enum columns are normalised. *)
Definition normalized_document (d : JsValue) : Payload :=
  mkPayload (or_else (own d "salaryRanges") (JArr []))
            (or_else (own d "growthRate") (JNum 0))
            (normalized_enum (own d "demandLevel") ["HIGH"; "MEDIUM"; "LOW"] "MEDIUM")
            (or_else (own d "topSkills") (JArr []))
            (normalized_enum (own d "marketOutlook")
                             ["POSITIVE"; "NEUTRAL"; "NEGATIVE"] "NEUTRAL")
            (or_else (own d "keyTrends") (JArr []))
            (or_else (own d "recommendedSkills") (JArr [])).



(* ------------------------------------------------------------------ *)
(** ** Properties *)

Ltac run :=
  unfold bind, try_catch, ret, throw, lift, emit, get_db, put_db, Date_now; cbn.

(** Equality of two worlds, field by field. *)
Ltac world_eq :=
  f_equal; try lia; try (rewrite <- ?app_assoc; cbn [app]; reflexivity).

(** The string helpers on small inputs. *)
Example trim_strips_both_ends :
  trim (newline ++ "  {x}  " ++ newline) = "{x}".
Proof. reflexivity. Qed.

Example strip_fences_weekly :
  strip_fences true (fence ++ "json" ++ newline ++ "{}" ++ fence) = "{}".
Proof. reflexivity. Qed.

Example strip_fences_dashboard :
  strip_fences false (fence ++ "json" ++ newline ++ "{}" ++ fence) = (newline ++ "{}")%string.
Proof. reflexivity. Qed.

Example toUpperCase_ascii : toUpperCase "Medium-1" = "MEDIUM-1".
Proof. reflexivity. Qed.

Example literal_get_prototype :
  literal_get demandLevelMap "High" = JStr "HIGH" /\
  literal_get demandLevelMap "HIGH" = JUndefined /\
  literal_get demandLevelMap "constructor" = JBuiltin "constructor".
Proof. repeat split. Qed.

Example index_get_out_of_range :
  index_get (JArr [JStr "a"]) 0 = Returned (JStr "a") /\
  index_get (JArr [JStr "a"]) 1 = Returned JUndefined.
Proof. split; reflexivity. Qed.

(** The budget counts retries: three rate-limited calls are still
    followed by a fourth attempt. *)
Example fourth_attempt_is_made :
  safeGenerate (scripted [Thrown too_many_requests; Thrown too_many_requests;
                          Thrown too_many_requests; Returned "ok"])
               (QuizPrompt None) 3 first_visit
  = (Returned "ok", after_attempts (QuizPrompt None) 3 first_visit).
Proof. reflexivity. Qed.

Section Retry.

Variable generateContent : nat -> Prompt -> Outcome string.

(** One round of [safeGenerate], spelled out. *)
Lemma safeGenerate_unfold p retries w :
  safeGenerate generateContent p retries w =
  match generateContent (calls w) p with
  | Returned text => (Returned text, called p w)
  | Thrown err =>
      if match status err with Some s => s =? 404 | None => false end
      then (Thrown (Error_ "Model name is outdated. Try 'gemini-2.5-flash-lite'."),
            called p w)
      else match retries with
           | S r =>
               if match status err with Some s => s =? 429 | None => false end
               then safeGenerate generateContent p r (slept p 1 w)
               else (Thrown err, called p w)
           | O => (Thrown err, called p w)
           end
  end.
Proof.
  assert (Hs : slept p 1 w =
               mkWorld (session w) (db w) (clock w + 30000) (S (calls w))
                       ((journal w ++ [Generate p]) ++ [Sleep 30000])).
  { unfold slept. cbn [retry_events]. world_eq. }
  rewrite Hs.
  destruct retries; cbn; unfold try_catch, model_generateContent, bind, emit; cbn;
    destruct (generateContent (calls w) p) as [text|err]; cbn; try reflexivity;
    destruct (match status err with Some s => s =? 404 | None => false end);
    try reflexivity.
  destruct (match status err with Some s => s =? 429 | None => false end);
    reflexivity.
Qed.

Lemma slept_slept p n w : slept p n (slept p 1 w) = slept p (S n) w.
Proof.
  unfold slept. cbn [session db clock calls journal retry_events].
  world_eq.
Qed.

(** As long as the attempts are rate limited and the budget lasts, each
    one costs a call and a 30-second sleep, and the loop goes on. *)
Lemma safeGenerate_retries p : forall n retries w,
  (n <= retries)%nat ->
  (forall i, (i < n)%nat -> rate_limited (generateContent (calls w + i) p)) ->
  safeGenerate generateContent p retries w =
  safeGenerate generateContent p (retries - n) (slept p n w).
Proof.
  induction n as [|n IH]; intros retries w Hle Hfail.
  - rewrite Nat.sub_0_r. unfold slept. destruct w; cbn [session db clock calls journal retry_events].
    f_equal. f_equal; try lia. symmetry; apply app_nil_r.
  - destruct retries as [|r]; [lia|].
    rewrite safeGenerate_unfold.
    destruct (Hfail 0%nat ltac:(lia)) as [e [He Hs]].
    rewrite Nat.add_0_r in He. rewrite He, Hs. cbn [Z.eqb Pos.eqb].
    rewrite IH.
    + cbn [Nat.sub]. rewrite slept_slept. reflexivity.
    + lia.
    + intros i Hi. cbn [calls slept].
      replace (calls w + 1 + i)%nat with (calls w + S i)%nat by lia.
      apply Hfail. lia.
Qed.

(** C5. Retry policy of [safeGenerate] with its default budget of 3: when
    the first [n] calls of the generator are rate limited (status 429),
    then (a) if [n < 3] and the next call answers, [safeGenerate] returns
    that answer after exactly [n] backoffs of 30000 ms and [n + 1] calls;
    (b) if more than 3 calls are rate limited, it raises the error of the
    fourth call (the spec's GenerationFailed) after 3 backoffs and 4
    calls. *)
Theorem retry_policy p w n :
  (forall i, (i < n)%nat -> rate_limited (generateContent (calls w + i) p)) ->
  ((n < 3)%nat ->
   forall text, generateContent (calls w + n) p = Returned text ->
     safeGenerate generateContent p 3 w = (Returned text, after_attempts p n w))
  /\
  ((3 < n)%nat ->
   exists e, generateContent (calls w + 3) p = Thrown e /\ status e = Some 429 /\
     safeGenerate generateContent p 3 w = (Thrown e, after_attempts p 3 w)).
Proof.
  intros Hfail. split.
  - intros Hn text Hok.
    rewrite (@safeGenerate_retries p n 3 w) by (auto; lia).
    rewrite safeGenerate_unfold.
    cbn [calls slept]. rewrite Hok. reflexivity.
  - intros Hn.
    destruct (Hfail 3%nat Hn) as [e [He Hs]].
    exists e. split; [exact He|]. split; [exact Hs|].
    rewrite (@safeGenerate_retries p 3 3 w); [|lia|intros i Hi; apply Hfail; lia].
    cbn [Nat.sub]. rewrite safeGenerate_unfold.
    cbn [calls slept]. rewrite He, Hs. reflexivity.
Qed.

(** The backoffs of [n] retries add up to [n] times 30 seconds, and
    nothing but the clock, the call counter and the journal moves. *)
Lemma after_attempts_effects p n w :
  clock (after_attempts p n w) = clock w + 30000 * Z.of_nat n /\
  calls (after_attempts p n w) = (calls w + n + 1)%nat /\
  db (after_attempts p n w) = db w /\
  journal (after_attempts p n w) = journal w ++ retry_events p n ++ [Generate p].
Proof.
  unfold after_attempts, called, slept.
  cbn [session db clock calls journal].
  repeat split; [lia | rewrite <- app_assoc; reflexivity].
Qed.

(** C8. A failure whose status is not 429, for instance the 404 of an
    unknown model identifier, makes [safeGenerate] raise at once, whatever
    the budget: one generator call, no backoff, no retry. On 404 the error
    raised is the "Model name is outdated" error, otherwise the failure
    itself. *)
Theorem misconfigured_raises_at_once p w retries e :
  generateContent (calls w) p = Thrown e ->
  status e <> Some 429 ->
  safeGenerate generateContent p retries w =
  (Thrown (if match status e with Some s => s =? 404 | None => false end
           then Error_ "Model name is outdated. Try 'gemini-2.5-flash-lite'."
           else e),
   called p w).
Proof.
  intros He Hs.
  rewrite safeGenerate_unfold, He.
  destruct (status e) as [s|] eqn:Hst.
  - destruct (s =? 404) eqn:H404; [reflexivity|].
    destruct retries; [reflexivity|].
    destruct (s =? 429) eqn:H429; [|reflexivity].
    apply Z.eqb_eq in H429. subst s. congruence.
  - destruct retries; reflexivity.
Qed.

End Retry.

(** An instance of the retry policy: two rate-limited calls, then an
    answer; and five rate-limited calls. *)
Lemma retry_policy_witness :
  let twice := scripted [Thrown too_many_requests; Thrown too_many_requests;
                         Returned "ok"] in
  let always := scripted [Thrown too_many_requests; Thrown too_many_requests;
                          Thrown too_many_requests; Thrown too_many_requests;
                          Thrown too_many_requests] in
  safeGenerate twice (QuizPrompt None) 3 first_visit
    = (Returned "ok", after_attempts (QuizPrompt None) 2 first_visit)
  /\ clock (after_attempts (QuizPrompt None) 2 first_visit) = 5000 + 60000
  /\ exists e, status e = Some 429 /\
       safeGenerate always (QuizPrompt None) 3 first_visit
       = (Thrown e, after_attempts (QuizPrompt None) 3 first_visit).
Proof.
  intros twice always.
  assert (H2 : forall i, (i < 2)%nat ->
               rate_limited (twice (calls first_visit + i)%nat (QuizPrompt None))).
  { intros i Hi. exists too_many_requests.
    destruct i as [|[|i]]; [split; reflexivity | split; reflexivity | lia]. }
  assert (H5 : forall i, (i < 5)%nat ->
               rate_limited (always (calls first_visit + i)%nat (QuizPrompt None))).
  { intros i Hi. exists too_many_requests.
    destruct i as [|[|[|[|[|i]]]]]; try (split; reflexivity). lia. }
  split; [|split].
  - apply (proj1 (retry_policy twice (QuizPrompt None) first_visit H2));
      [lia | reflexivity].
  - reflexivity.
  - destruct (proj2 (retry_policy always (QuizPrompt None) first_visit H5)) as [e [_ [Hs He]]];
      [lia|].
    exists e. split; assumption.
Defined.

Lemma misconfigured_raises_at_once_witness :
  safeGenerate (scripted [Thrown model_not_found; Returned "late"]) (QuizPrompt None) 3
               first_visit
  = (Thrown (Error_ "Model name is outdated. Try 'gemini-2.5-flash-lite'."),
     called (QuizPrompt None) first_visit).
Proof.
  apply (@misconfigured_raises_at_once
           (scripted [Thrown model_not_found; Returned "late"])
           (QuizPrompt None) first_visit 3 model_not_found).
  - reflexivity.
  - cbn. discriminate.
Defined.

Section Interview.

Variable generateContent : nat -> Prompt -> Outcome string.
Variable JSON_parse : string -> Outcome JsValue.
Variable Number_toString : Q -> string.

(** A signed-in caller passes the identity check and the user lookup:
    two journal entries, and the action goes on with the user's row. *)
Lemma enter {A} userId user w (k : User -> M A) :
  signed_in userId user w ->
  (u <- require_identity ;; x <- require_user u ;; k x) w
  = k user (logged [Auth; Read TUser] w).
Proof.
  intros (Hs & Hne & Hu).
  destruct w as [s d c n j]; cbn in Hs, Hu; subst s.
  unfold require_identity, require_user, auth, db_user_findUnique. run.
  destruct (userId =? "")%string eqn:E; [apply String.eqb_eq in E; contradiction|].
  cbn. rewrite Hu. cbn.
  unfold logged. cbn. rewrite <- ?app_assoc. reflexivity.
Qed.

(** [generateQuiz] for a signed-in caller: whatever goes wrong in the
    attempt ends in the placeholder. *)
Lemma generateQuiz_run userId user w :
  signed_in userId user w ->
  generateQuiz generateContent JSON_parse w
  = match safeGenerate generateContent (QuizPrompt (user_industry user)) 3
            (logged [Auth; Read TUser] w) with
    | (Returned text, w') =>
        match outcome_bind (JSON_parse text) (fun quiz => field quiz "questions") with
        | Returned v => (Returned v, w')
        | Thrown _ => (Returned (JArr [placeholder_question]), w')
        end
    | (Thrown _, w') => (Returned (JArr [placeholder_question]), w')
    end.
Proof.
  intros Hin.
  unfold generateQuiz. rewrite (enter _ Hin).
  unfold try_catch, bind.
  destruct (safeGenerate _ _ _ _) as [[text|e] w']; [|reflexivity].
  unfold lift. destruct (JSON_parse text) as [quiz|e]; [|reflexivity].
  cbn [outcome_bind]. destruct (field quiz "questions"); reflexivity.
Qed.

(** C9. When the caller is signed in and the generation fails (after its
    retries) or its text does not parse, [generateQuiz] returns an array of
    exactly one element, the hard-coded placeholder question, an object
    with the fields [question] "Fallback question...", [options]
    ["A", "B", "C", "D"], [correctAnswer] "A" and [explanation]
    "Error fallback": not an empty result, not an error. *)
Theorem quiz_falls_back userId user w :
  signed_in userId user w ->
  let attempt := safeGenerate generateContent (QuizPrompt (user_industry user)) 3
                   (logged [Auth; Read TUser] w) in
  ((exists e, fst attempt = Thrown e) \/
   (exists text e, fst attempt = Returned text /\ JSON_parse text = Thrown e)) ->
  generateQuiz generateContent JSON_parse w
  = (Returned
       (JArr [JObj [("question", JStr "Fallback question...");
                    ("options", JArr [JStr "A"; JStr "B"; JStr "C"; JStr "D"]);
                    ("correctAnswer", JStr "A");
                    ("explanation", JStr "Error fallback")]]),
     snd attempt).
Proof.
  intros Hin attempt Hfail.
  rewrite (generateQuiz_run Hin). fold attempt.
  destruct attempt as [[text|e] w'] eqn:Ha; cbn [fst snd] in *.
  - destruct Hfail as [[e He]|[text' [e [Ht Hp]]]]; [discriminate|].
    injection Ht as <-. rewrite Hp. reflexivity.
  - reflexivity.
Qed.

(** The placeholder has the four fields of a question. *)
Lemma placeholder_fields :
  field placeholder_question "question" = Returned (JStr "Fallback question...") /\
  field placeholder_question "options"
    = Returned (JArr [JStr "A"; JStr "B"; JStr "C"; JStr "D"]) /\
  field placeholder_question "correctAnswer" = Returned (JStr "A") /\
  field placeholder_question "explanation" = Returned (JStr "Error fallback").
Proof. repeat split. Qed.

(** The [isCorrect] flag of every result is the strict equality of the
    question's [correctAnswer] and the submitted answer. *)
Lemma question_results_isCorrect answers : forall qs index results,
  question_results answers index qs = Returned results ->
  forall r, In r results -> isCorrect r = strict_eq (qr_answer r) (qr_userAnswer r).
Proof.
  induction qs as [|q qs IH]; intros index results H r Hr; cbn in H.
  - injection H as <-. destruct Hr.
  - unfold question_result in H.
    destruct (field q "question") as [a1|]; cbn in H; [|discriminate].
    destruct (field q "correctAnswer") as [a2|]; cbn in H; [|discriminate].
    destruct (index_get answers index) as [a3|]; cbn in H; [|discriminate].
    destruct (field q "explanation") as [a4|]; cbn in H; [|discriminate].
    destruct (question_results answers (S index) qs) as [rs|] eqn:E; cbn in H; [|discriminate].
    injection H as <-. destruct Hr as [<-|Hr]; [reflexivity|].
    eapply IH; eauto.
Qed.

Lemma no_wrong_answers (results : list QuestionResult) :
  (forall r, In r results -> isCorrect r = true) ->
  filter (fun q => negb (isCorrect q)) results = [].
Proof.
  induction results as [|r rs IH]; intros H; [reflexivity|].
  cbn. rewrite (H r (or_introl eq_refl)). cbn. apply IH.
  intros x Hx. apply H. right. exact Hx.
Qed.

(** C10. When the caller is signed in and every submitted answer is
    strictly equal to its question's [correctAnswer], [saveQuizResult]
    makes no generator call (the call counter and the journal show none)
    and persists an assessment whose [improvementTip] is [null]. *)
Theorem all_correct_needs_no_tip userId user w questions answers score results :
  signed_in userId user w ->
  map_questions questions answers = Returned results ->
  (forall r, In r results -> strict_eq (qr_answer r) (qr_userAnswer r) = true) ->
  let a := mkAssessment (next_id (db w)) (user_id user) score results
                        "Technical" JNull (clock w) in
  saveQuizResult generateContent JSON_parse Number_toString questions answers score w
  = (Returned a,
     mkWorld (session w) (add_assessment (db w) a) (clock w) (calls w)
             (journal w ++ [Auth; Read TUser; Write TAssessment])).
Proof.
  intros Hin Hmap Hall a.
  unfold saveQuizResult. rewrite (enter _ Hin).
  assert (Hcorrect : forall r, In r results -> isCorrect r = true).
  { intros r Hr. unfold map_questions in Hmap.
    destruct questions; try discriminate.
    rewrite (question_results_isCorrect _ _ _ Hmap r Hr). apply Hall, Hr. }
  unfold bind at 1. unfold lift at 1. rewrite Hmap.
  rewrite (no_wrong_answers _ Hcorrect). cbn [length Nat.ltb Nat.leb].
  unfold db_assessment_create. run.
  f_equal. f_equal. rewrite <- app_assoc. reflexivity.
Qed.

End Interview.

Lemma quiz_falls_back_witness :
  generateQuiz (scripted [Returned "not json"]) (parse_table []) first_visit
  = (Returned
       (JArr [JObj [("question", JStr "Fallback question...");
                    ("options", JArr [JStr "A"; JStr "B"; JStr "C"; JStr "D"]);
                    ("correctAnswer", JStr "A");
                    ("explanation", JStr "Error fallback")]]),
     called (QuizPrompt (Some "tech")) (logged [Auth; Read TUser] first_visit)).
Proof.
  apply (@quiz_falls_back (scripted [Returned "not json"]) (parse_table [])
           "user_alice" alice first_visit).
  - repeat split. discriminate.
  - right. exists "not json", (SyntaxError "Unexpected token"). split; reflexivity.
Defined.

Lemma all_correct_needs_no_tip_witness :
  exists a w',
    saveQuizResult (scripted []) (parse_table []) print_integer
      two_questions (JArr [JStr "2"; JStr "4"]) (JNum 100) first_visit
    = (Returned a, w')
    /\ improvementTip a = JNull
    /\ calls w' = calls first_visit
    /\ assessments (db w') = [a].
Proof.
  eexists. eexists. split.
  - eapply (@all_correct_needs_no_tip (scripted []) (parse_table []) print_integer
              "user_alice" alice first_visit).
    + repeat split. discriminate.
    + reflexivity.
    + intros r [<-|[<-|[]]]; reflexivity.
  - repeat split.
Defined.

Section Dashboard.

Variable generateContent : nat -> Prompt -> Outcome string.
Variable JSON_parse : string -> Outcome JsValue.
Variable Number_toString : Q -> string.

Lemma enter_include {A} userId user w
  (k : option (User * option IndustryInsight) -> M A) :
  signed_in userId user w ->
  (u <- require_identity ;; found <- db_user_findUnique_include u ;; k found) w
  = k (Some (user, user_insight (db w) user)) (logged [Auth; Read TUser] w).
Proof.
  intros (Hs & Hne & Hu).
  destruct w as [s d c n j]; cbn in Hs, Hu; subst s.
  unfold require_identity, auth, db_user_findUnique_include. run.
  destruct (userId =? "")%string eqn:E; [apply String.eqb_eq in E; contradiction|].
  cbn. rewrite Hu. cbn.
  unfold logged. cbn. rewrite <- ?app_assoc. reflexivity.
Qed.

(** C7. Cache hit: when the caller is signed in, the insight of their
    industry exists and [now < nextUpdate], [getIndustryInsights] returns
    that stored record as it is; the world afterwards differs only by the
    identity lookup and the one store read in the journal: the generator
    is not called and nothing is written. *)
Theorem fresh_record_is_served userId user r w :
  signed_in userId user w ->
  user_insight (db w) user = Some r ->
  clock w < nextUpdate r ->
  getIndustryInsights generateContent JSON_parse Number_toString w
  = (Returned (Some r), logged [Auth; Read TUser] w).
Proof.
  intros Hin Hr Hfresh.
  unfold getIndustryInsights. rewrite (enter_include _ Hin), Hr.
  unfold construct. run.
  destruct (nextUpdate r <=? clock w) eqn:E; [apply Z.leb_le in E; lia|].
  reflexivity.
Qed.

(** What a cache hit leaves untouched. *)
Lemma logged_reads_only w :
  db (logged [Auth; Read TUser] w) = db w /\
  calls (logged [Auth; Read TUser] w) = calls w /\
  clock (logged [Auth; Read TUser] w) = clock w /\
  journal (logged [Auth; Read TUser] w) = journal w ++ [Auth; Read TUser].
Proof. repeat split. Qed.

(** [generateAIInsights] costs exactly one generator call, whatever its
    outcome. *)
Lemma generateAIInsights_world industry w :
  snd (generateAIInsights generateContent JSON_parse Number_toString industry w)
  = called (InsightsPrompt industry) w.
Proof.
  unfold generateAIInsights, model_generateContent. run.
  destruct (generateContent (calls w) (InsightsPrompt industry)); cbn; [|reflexivity].
  destruct (JSON_parse _); cbn; [|reflexivity].
  destruct (map_enum _ _ _ _ _); cbn; [|reflexivity].
  destruct (map_enum _ _ _ _ _); cbn; [|reflexivity].
  destruct (payload_of _ _ _); reflexivity.
Qed.

(** The refresh branch never reaches the store: whenever the generation
    succeeds, building the argument of [upsert] raises the TypeError of
    [new Date.now()]; otherwise the generation error is raised. Either
    way the world has moved by one generator call only. *)
Lemma regenerate_raises user w :
  exists e,
    regenerate generateContent JSON_parse Number_toString user w
    = (Thrown e, called (InsightsPrompt (user_industry user)) w).
Proof.
  unfold regenerate. unfold bind at 1.
  pose proof (generateAIInsights_world (user_industry user) w) as Hw.
  destruct (generateAIInsights _ _ _ _ w) as [[p|e] w'] eqn:E; cbn in Hw; subst w'.
  - exists (TypeError "Date.now is not a constructor"). reflexivity.
  - exists e. reflexivity.
Qed.

(** A miss or a stale record ends in an error and leaves the store as it
    was: no record is created, none is refreshed. *)
Lemma miss_or_stale_raises userId user w :
  signed_in userId user w ->
  (user_insight (db w) user = None \/
   exists r, user_insight (db w) user = Some r /\ nextUpdate r <= clock w) ->
  exists e w',
    getIndustryInsights generateContent JSON_parse Number_toString w = (Thrown e, w')
    /\ db w' = db w.
Proof.
  intros Hin Hcase.
  unfold getIndustryInsights. rewrite (enter_include _ Hin).
  destruct (regenerate_raises user (logged [Auth; Read TUser] w)) as [e He].
  exists e, (called (InsightsPrompt (user_industry user)) (logged [Auth; Read TUser] w)).
  split; [|reflexivity].
  destruct Hcase as [Hnone|[r [Hr Hstale]]].
  - rewrite Hnone. run. unfold bind in He. rewrite He. reflexivity.
  - rewrite Hr. unfold construct. run.
    destruct (nextUpdate r <=? clock w) eqn:E; [|apply Z.leb_gt in E; lia].
    cbn. unfold bind in He. rewrite He. reflexivity.
Qed.

End Dashboard.

(** C1. At a first visit (no record for the caller's industry) and at a
    visit with a stale record, with a generator that answers a well-formed
    document, [getIndustryInsights] calls the generator once and then raises
    the TypeError of [new Date.now()] while it builds the argument of
    [upsert]: no InsightRecord is created and the stale one is not
    refreshed, so no record with [lastUpdated = now] and
    [nextUpdate = now + TTL] is stored. *)
Theorem refresh_raises_before_upsert :
  let gen := scripted [Returned insight_text] in
  let parse := parse_table [(insight_text, shouting_document)] in
  let prompt := InsightsPrompt (Some "tech") in
  getIndustryInsights gen parse print_integer first_visit
  = (Thrown (TypeError "Date.now is not a constructor"),
     called prompt (logged [Auth; Read TUser] first_visit))
  /\ industryInsights (db (called prompt (logged [Auth; Read TUser] first_visit))) = []
  /\ getIndustryInsights gen parse print_integer stale_visit
  = (Thrown (TypeError "Date.now is not a constructor"),
     called prompt (logged [Auth; Read TUser] stale_visit))
  /\ industryInsights (db (called prompt (logged [Auth; Read TUser] stale_visit)))
     = [tech_insight].
Proof. repeat split. Qed.

Lemma fresh_record_is_served_witness :
  getIndustryInsights (scripted []) (parse_table []) print_integer fresh_visit
  = (Returned (Some tech_insight), logged [Auth; Read TUser] fresh_visit).
Proof.
  apply (@fresh_record_is_served (scripted []) (parse_table []) print_integer
           "user_alice" alice tech_insight fresh_visit).
  - repeat split. discriminate.
  - reflexivity.
  - reflexivity.
Defined.

Section Enums.

Variable Number_toString : Q -> string.

(** Weekly job: an absent or [null] raw value gives the default. *)
Lemma normalizeEnum_nullish value allowed fallback :
  value = JUndefined \/ value = JNull ->
  normalizeEnum value allowed fallback = Returned (JStr fallback).
Proof. intros [->| ->]; reflexivity. Qed.

(** Weekly job: a string is upper-cased, kept when the result is allowed,
    replaced by the default otherwise. *)
Lemma normalizeEnum_string s allowed fallback :
  normalizeEnum (JStr s) allowed fallback
  = Returned (JStr (if mem_string (toUpperCase s) allowed
                    then toUpperCase s else fallback)).
Proof.
  unfold normalizeEnum. cbn.
  destruct (mem_string (toUpperCase s) allowed); reflexivity.
Qed.

Lemma mem_string_In s l : mem_string s l = true <-> In s l.
Proof.
  unfold mem_string. rewrite existsb_exists. split.
  - intros [x [Hx E]]. apply String.eqb_eq in E. subst. exact Hx.
  - intros H. exists s. split; [exact H | apply String.eqb_refl].
Qed.

(** Weekly job: whenever the normalisation returns, the field is a member
    of the allowed set, provided the default is. *)
Lemma normalizeEnum_member value allowed fallback v :
  In fallback allowed ->
  normalizeEnum value allowed fallback = Returned v ->
  exists u, v = JStr u /\ In u allowed.
Proof.
  intros Hf H.
  assert (Hstr : forall o, (exists e, o = Thrown e) \/ o = Returned JUndefined \/
                           (exists s, o = Returned (JStr s)) ->
            outcome_bind o (fun v0 =>
              match v0 with
              | JStr u => Returned (if mem_string u allowed then JStr u else JStr fallback)
              | _ => Returned (JStr fallback)
              end) = Returned v ->
            exists u, v = JStr u /\ In u allowed).
  { intros o [[e ->]|[->|[s ->]]]; cbn; intros E; try discriminate.
    - injection E as <-. eauto.
    - destruct (mem_string s allowed) eqn:M; injection E as <-; eauto.
      exists s. split; [reflexivity | apply mem_string_In, M]. }
  unfold normalizeEnum in H.
  destruct value; (eapply Hstr; [|exact H]); cbn; eauto.
Qed.

(** Weekly job: a raw value that is neither a string nor nullish (a
    number, a boolean, an array, an object) raises a TypeError. *)
Lemma normalizeEnum_other_raises value allowed fallback :
  enum_raw value = false ->
  exists e, normalizeEnum value allowed fallback = Thrown e /\ kind e = KTypeError.
Proof.
  destruct value; cbn; intros H; try discriminate; eexists; split; reflexivity.
Qed.

(** Dashboard: a string field is looked up as it is spelled. *)
Lemma map_enum_string fs name s map fallback :
  assoc name fs = Some (JStr s) ->
  map_enum Number_toString (JObj fs) name map fallback
  = Returned (or_else (literal_get map s) (JStr fallback)).
Proof. intros H. unfold map_enum. cbn. rewrite H. reflexivity. Qed.

(** Dashboard: the map knows the three capitalised spellings only; any
    other string that is no property of [Object.prototype] gives the
    default. *)
Lemma demandLevelMap_lookup s :
  or_else (literal_get demandLevelMap s) (JStr "MEDIUM")
  = if (s =? "High")%string then JStr "HIGH"
    else if (s =? "Medium")%string then JStr "MEDIUM"
    else if (s =? "Low")%string then JStr "LOW"
    else if mem_string s Object_prototype then JBuiltin s
    else JStr "MEDIUM".
Proof.
  unfold literal_get, demandLevelMap. cbn [assoc].
  destruct (s =? "High")%string; [reflexivity|].
  destruct (s =? "Medium")%string; [reflexivity|].
  destruct (s =? "Low")%string; [reflexivity|].
  destruct (mem_string s Object_prototype); reflexivity.
Qed.

Lemma marketOutlookMap_lookup s :
  or_else (literal_get marketOutlookMap s) (JStr "NEUTRAL")
  = if (s =? "Positive")%string then JStr "POSITIVE"
    else if (s =? "Neutral")%string then JStr "NEUTRAL"
    else if (s =? "Negative")%string then JStr "NEGATIVE"
    else if mem_string s Object_prototype then JBuiltin s
    else JStr "NEUTRAL".
Proof.
  unfold literal_get, marketOutlookMap. cbn [assoc].
  destruct (s =? "Positive")%string; [reflexivity|].
  destruct (s =? "Neutral")%string; [reflexivity|].
  destruct (s =? "Negative")%string; [reflexivity|].
  destruct (mem_string s Object_prototype); reflexivity.
Qed.

End Enums.

(** The weekly job folds the case of the spellings of a valid value. *)
Example normalizeEnum_spellings :
  normalizeEnum (JStr "high") ["HIGH"; "MEDIUM"; "LOW"] "MEDIUM" = Returned (JStr "HIGH") /\
  normalizeEnum (JStr "High") ["HIGH"; "MEDIUM"; "LOW"] "MEDIUM" = Returned (JStr "HIGH") /\
  normalizeEnum (JStr "HIGH") ["HIGH"; "MEDIUM"; "LOW"] "MEDIUM" = Returned (JStr "HIGH") /\
  normalizeEnum (JStr "soaring") ["HIGH"; "MEDIUM"; "LOW"] "MEDIUM" = Returned (JStr "MEDIUM") /\
  normalizeEnum (JStr "negative") ["POSITIVE"; "NEUTRAL"; "NEGATIVE"] "NEUTRAL"
    = Returned (JStr "NEGATIVE").
Proof. repeat split. Qed.

(** C2. The dashboard path does not fold case: on the document the dashboard
    prompt itself asks for, with [demandLevel] spelled "HIGH" and
    [marketOutlook] spelled "POSITIVE", [demandLevelMap] and
    [marketOutlookMap] have no such key and the fields become the defaults
    "MEDIUM" and "NEUTRAL"; the same holds for "high". The weekly job's
    [normalizeEnum] returns "HIGH" on both spellings. *)
Theorem dashboard_map_ignores_case :
  map_enum print_integer shouting_document "demandLevel" demandLevelMap "MEDIUM"
    = Returned (JStr "MEDIUM") /\
  map_enum print_integer shouting_document "marketOutlook" marketOutlookMap "NEUTRAL"
    = Returned (JStr "NEUTRAL") /\
  map_enum print_integer (JObj [("demandLevel", JStr "high")]) "demandLevel"
           demandLevelMap "MEDIUM"
    = Returned (JStr "MEDIUM") /\
  normalizeEnum (JStr "HIGH") ["HIGH"; "MEDIUM"; "LOW"] "MEDIUM" = Returned (JStr "HIGH") /\
  (exists p w',
     generateAIInsights (scripted [Returned insight_text])
       (parse_table [(insight_text, shouting_document)]) print_integer
       (Some "tech") first_visit = (Returned p, w')
     /\ demandLevel p = JStr "MEDIUM" /\ marketOutlook p = JStr "NEUTRAL").
Proof.
  repeat split.
  eexists. eexists. split; [reflexivity|]. split; reflexivity.
Qed.

Section ParseFailure.

Variable generateContent : nat -> Prompt -> Outcome string.
Variable JSON_parse : string -> Outcome JsValue.
Variable Number_toString : Q -> string.

Lemma or_empty (s : string) : (if (s =? "")%string then "" else s) = s.
Proof.
  destruct (s =? "")%string eqn:E; [|reflexivity].
  apply String.eqb_eq in E. congruence.
Qed.

(** Weekly job: an unparsable answer skips the subject. One generator
    call, no store call, and the loop body returns normally. *)
Lemma refresh_industry_skips key w text e :
  generateContent (calls w) (WeeklyInsightsPrompt key) = Returned text ->
  JSON_parse (trim (strip_fences true text)) = Thrown e ->
  refresh_industry generateContent JSON_parse key w
  = (Returned tt, called (WeeklyInsightsPrompt key) w).
Proof.
  intros Hg Hp.
  unfold refresh_industry, model_generateContent. run.
  rewrite Hg. cbn. rewrite or_empty, Hp. reflexivity.
Qed.

(** C3, as amended. When the generator answers a text that does not
    parse, raw or cleaned: the weekly job skips the subject (no store
    call, the loop body returns); [generateQuiz] returns the declared
    placeholder; the improvement tip is the declared fallback tip;
    [generateAIInsights] raises "Failed to generate AI insights";
    [generateCoverLetter] does not fail: it stores the raw text of the
    generator as the content of the letter and returns it. No operation
    puts a made-up parsed result in place of the failure. *)
Theorem parse_failure_policies userId user w text key data industry wrong lines :
  signed_in userId user w ->
  (forall p, generateContent (calls w) p = Returned text) ->
  (exists e, JSON_parse text = Thrown e) ->
  (exists e, JSON_parse (trim (strip_fences true text)) = Thrown e) ->
  (exists e, JSON_parse (trim (strip_fences false (trim text))) = Thrown e) ->
  outcome_map (fun q => outcome_bind (ToString Number_toString (qr_question q))
                          (fun s => Returned ("- " ++ s)%string)) wrong
    = Returned lines ->
  refresh_industry generateContent JSON_parse key w
    = (Returned tt, called (WeeklyInsightsPrompt key) w)
  /\ fst (generateQuiz generateContent JSON_parse w)
     = Returned (JArr [placeholder_question])
  /\ fst (improvement_tip generateContent JSON_parse Number_toString user wrong w)
     = Returned (JStr fallback_tip)
  /\ (exists e,
        JSON_parse (trim (strip_fences false (trim text))) = Thrown e /\
        fst (generateAIInsights generateContent JSON_parse Number_toString industry w)
        = Thrown (Error_ ("Failed to generate AI insights: " ++ message e)))
  /\ (exists c w',
        generateCoverLetter generateContent JSON_parse data w = (Returned c, w')
        /\ content c = JStr text
        /\ coverLetters (db w') = coverLetters (db w) ++ [c]).
Proof.
  intros Hin Hgen [e1 H1] [e2 H2] [e3 H3] Hlines.
  split; [|split; [|split; [|split]]].
  - eapply refresh_industry_skips; eauto.
  - rewrite (generateQuiz_run generateContent JSON_parse Hin).
    rewrite safeGenerate_unfold. cbn [calls logged]. rewrite Hgen, H1.
    reflexivity.
  - unfold improvement_tip. unfold bind at 1. unfold lift at 1. rewrite Hlines.
    unfold try_catch, bind. rewrite safeGenerate_unfold, Hgen.
    unfold lift. rewrite H1. reflexivity.
  - exists e3. split; [exact H3|].
    unfold generateAIInsights, model_generateContent. run.
    rewrite Hgen. cbn. rewrite H3. reflexivity.
  - unfold generateCoverLetter. rewrite (enter _ Hin).
    unfold model_generateContent, db_coverLetter_create. run.
    rewrite Hgen. cbn. rewrite H1. cbn.
    eexists. eexists. split; [reflexivity|]. split; reflexivity.
Qed.

End ParseFailure.

(** C3, the claim as stated fails: the text of the generator does not
    parse, and cover-letter generation neither fails nor falls back to a
    declared value; it succeeds and stores the raw text. *)
Lemma cover_letter_keeps_unparsable_text :
  parse_table [] letter_text = Thrown (SyntaxError "Unexpected token") /\
  exists c w',
    generateCoverLetter (scripted [Returned letter_text]) (parse_table [])
                        letter_form first_visit = (Returned c, w')
    /\ content c = JStr letter_text
    /\ coverLetters (db first_visit) = []
    /\ coverLetters (db w') = [c].
Proof.
  split; [reflexivity|].
  eexists. eexists. split; [lazy; reflexivity|]. repeat split.
Qed.

Lemma parse_failure_policies_witness :
  refresh_industry (scripted [Returned letter_text]) (parse_table []) "tech" first_visit
    = (Returned tt, called (WeeklyInsightsPrompt "tech") first_visit)
  /\ fst (generateQuiz (scripted [Returned letter_text]) (parse_table []) first_visit)
     = Returned (JArr [placeholder_question])
  /\ (exists c w',
        generateCoverLetter (scripted [Returned letter_text]) (parse_table [])
                            letter_form first_visit = (Returned c, w')
        /\ content c = JStr letter_text).
Proof.
  destruct (@parse_failure_policies (scripted [Returned letter_text]) (parse_table [])
              print_integer "user_alice" alice first_visit letter_text "tech"
              letter_form (Some "tech") [] [])
    as (Hweekly & Hquiz & _ & _ & c & w' & Hletter & Hcontent & _).
  - repeat split. discriminate.
  - intros p. reflexivity.
  - eexists. reflexivity.
  - eexists. reflexivity.
  - eexists. reflexivity.
  - reflexivity.
  - split; [exact Hweekly|]. split; [exact Hquiz|].
    exists c, w'. split; assumption.
Defined.

Section Identity.

Variable generateContent : nat -> Prompt -> Outcome string.
Variable JSON_parse : string -> Outcome JsValue.
Variable Number_toString : Q -> string.
Variable checkUser : M (option User).

(** Without an identity the check raises, after the identity lookup and
    nothing else. *)
Lemma require_identity_stops w :
  no_identity (session w) = true ->
  require_identity w = (Thrown (Error_ "Unauthorized"), logged [Auth] w).
Proof.
  intros H. unfold require_identity, auth. run. rewrite H. reflexivity.
Qed.

Lemma stopped {A} (k : string -> M A) w :
  no_identity (session w) = true ->
  (u <- require_identity ;; k u) w = (Thrown (Error_ "Unauthorized"), logged [Auth] w).
Proof.
  intros H. unfold bind. rewrite (require_identity_stops _ H). reflexivity.
Qed.

(** C4, as amended. For a caller without identity, over all eleven
    functions the "use server" modules export: the nine actions that begin
    with the identity check raise Unauthorized, and
    [getUserOnboardingStatus] answers [{ isOnboarded: false }] instead of
    raising; in both cases only the identity lookup has happened: no store
    read, no store write, no generator call. [generateAIInsights], exported
    beside the dashboard action, has no identity check: it goes straight to
    the generator (one call journalled, no identity lookup) and answers or
    fails as the generator and the parser decide. *)
Theorem anonymous_caller_is_stopped (a : Action) w :
  no_identity (session w) = true ->
  perform generateContent JSON_parse Number_toString checkUser a w
  = match a with
    | GetUserOnboardingStatus =>
        (Returned (ROnboarding false None), logged [Auth] w)
    | GenerateAIInsights industry =>
        (match fst (generateAIInsights generateContent JSON_parse Number_toString
                      industry w) with
         | Returned p => Returned (RPayload p)
         | Thrown e => Thrown e
         end,
         called (InsightsPrompt industry) w)
    | _ => (Thrown (Error_ "Unauthorized"), logged [Auth] w)
    end.
Proof.
  intros H.
  destruct a as [ | q ans sc | | d | | id | id | | d | | subject ]; unfold perform;
    try (unfold bind at 1;
         unfold generateQuiz, saveQuizResult, getAssessments, generateCoverLetter,
           getCoverLetters, getCoverLetter, deleteCoverLetter, getIndustryInsights,
           updateUser;
         rewrite (stopped _ _ H); reflexivity).
  - unfold getUserOnboardingStatus, auth. run. rewrite H. reflexivity.
  - unfold bind.
    pose proof (generateAIInsights_world generateContent JSON_parse Number_toString
                  subject w) as Hw.
    destruct (generateAIInsights generateContent JSON_parse Number_toString subject w)
      as [[p|e] w1]; cbn [fst snd] in *; subst w1; reflexivity.
Qed.

End Identity.

(** C4, the claim as stated fails: without an identity
    [getUserOnboardingStatus] raises nothing; it returns
    [{ isOnboarded: false }]. *)
Lemma onboarding_status_does_not_raise :
  session anonymous_visit = None /\
  perform (scripted []) (parse_table []) print_integer check_session
          GetUserOnboardingStatus anonymous_visit
  = (Returned (ROnboarding false None), logged [Auth] anonymous_visit).
Proof. split; reflexivity. Qed.

Lemma anonymous_caller_is_stopped_witness :
  perform (scripted []) (parse_table []) print_integer check_session
          GetIndustryInsights anonymous_visit
  = (Thrown (Error_ "Unauthorized"), logged [Auth] anonymous_visit)
  /\ only_identity [Auth] = true
  /\ snd (perform (scripted [Returned insight_text])
               (parse_table [(insight_text, shouting_document)]) print_integer
               check_session (GenerateAIInsights (Some "tech")) anonymous_visit)
     = called (InsightsPrompt (Some "tech")) anonymous_visit.
Proof.
  split; [|split; [reflexivity|]].
  - exact (@anonymous_caller_is_stopped (scripted []) (parse_table []) print_integer
             check_session GetIndustryInsights anonymous_visit eq_refl).
  - rewrite (@anonymous_caller_is_stopped (scripted [Returned insight_text])
               (parse_table [(insight_text, shouting_document)]) print_integer
               check_session (GenerateAIInsights (Some "tech")) anonymous_visit eq_refl).
    reflexivity.
Defined.

(** The weekly enum normalisation, where it returns, in closed form. *)
Lemma normalizeEnum_closed_form raw allowed fallback v :
  normalizeEnum raw allowed fallback = Returned v ->
  v = normalized_enum raw allowed fallback.
Proof.
  destruct raw; cbn; intros H; try discriminate; try (injection H as <-; reflexivity).
Qed.

(** The data the weekly job writes for a parsed value, where the
    normalisation returns, is the closed form, column by column. *)
Lemma weekly_payload_closed_form insights p :
  weekly_payload insights = Returned p -> p = normalized_document insights.
Proof.
  unfold weekly_payload, payload_of, normalized_document.
  destruct insights as [| |b|q|s|items|fs|name];
    cbn [field outcome_bind assignable own normalizeEnum];
    try discriminate;
    try (intros H; injection H as <-; reflexivity).
  destruct (normalizeEnum _ ["HIGH"; "MEDIUM"; "LOW"] "MEDIUM") as [vd|] eqn:Ed;
    cbn [outcome_bind]; [|discriminate].
  destruct (normalizeEnum _ ["POSITIVE"; "NEUTRAL"; "NEGATIVE"] "NEUTRAL") as [vo|] eqn:Eo;
    cbn [outcome_bind]; [|discriminate].
  apply normalizeEnum_closed_form in Ed, Eo. subst vd vo.
  intros H. injection H as <-. reflexivity.
Qed.

Section Weekly.

Variable generateContent : nat -> Prompt -> Outcome string.
Variable JSON_parse : string -> Outcome JsValue.




(** Outside that scenario: a text that parses to [null] is no
    GeneratedDocument, and the weekly job raises on it. *)
Lemma weekly_payload_null_raises :
  exists e, weekly_payload JNull = Thrown e /\ kind e = KTypeError.
Proof. eexists. split; reflexivity. Qed.

End Weekly.

(** Cleaning removes the fence the generator wrapped around its answer. *)
Example fenced_text_cleaned : trim (strip_fences true fenced_text) = insight_text.
Proof. reflexivity. Qed.



(* ------------------------------------------------------------------ *)
(** ** Further properties of the actions *)

Section InterviewMore.

Variable generateContent : nat -> Prompt -> Outcome string.
Variable JSON_parse : string -> Outcome JsValue.
Variable Number_toString : Q -> string.

Lemma after_attempts_zero p w : after_attempts p 0 w = called p w.
Proof.
  unfold after_attempts, called, slept. destruct w. cbn [session db clock calls journal retry_events].
  f_equal; try lia. rewrite app_nil_r. reflexivity.
Qed.

Lemma after_attempts_succ p n w :
  after_attempts p n (slept p 1 w) = after_attempts p (S n) w.
Proof. unfold after_attempts. rewrite slept_slept. reflexivity. Qed.

Lemma status_is_429 (e : JsError) :
  match status e with Some s => s =? 429 | None => false end = true ->
  status e = Some 429.
Proof.
  destruct (status e) as [s|]; [|discriminate].
  intros H. apply Z.eqb_eq in H. congruence.
Qed.

(** [safeGenerate] leaves the session and the store alone. *)
Lemma safeGenerate_keeps_store p : forall retries w,
  session (snd (safeGenerate generateContent p retries w)) = session w /\
  db (snd (safeGenerate generateContent p retries w)) = db w.
Proof.
  induction retries as [|r IH]; intros w; rewrite safeGenerate_unfold;
    destruct (generateContent (calls w) p) as [text|err]; try (split; reflexivity);
    destruct (match status err with Some s => s =? 404 | None => false end);
    try (split; reflexivity).
  destruct (match status err with Some s => s =? 429 | None => false end);
    [|split; reflexivity].
  destruct (IH (slept p 1 w)) as [Hs Hd]. rewrite Hs, Hd. split; reflexivity.
Qed.

(** X1. Whatever the generator does, [safeGenerate] with a budget of [retries]
    makes at least one and at most [retries + 1] generator calls and sleeps
    at most [retries] times 30 seconds. *)
Theorem safeGenerate_bounded p : forall retries w,
  (calls w < calls (snd (safeGenerate generateContent p retries w))
           <= calls w + retries + 1)%nat /\
  clock w <= clock (snd (safeGenerate generateContent p retries w))
          <= clock w + 30000 * Z.of_nat retries.
Proof.
  induction retries as [|r IH]; intros w; rewrite safeGenerate_unfold;
    destruct (generateContent (calls w) p) as [text|err];
    try (cbn [snd called calls clock]; lia);
    destruct (match status err with Some s => s =? 404 | None => false end);
    try (cbn [snd called calls clock]; lia).
  destruct (match status err with Some s => s =? 429 | None => false end);
    [|cbn [snd called calls clock]; lia].
  specialize (IH (slept p 1 w)). cbn [slept calls clock] in IH. lia.
Qed.

(** X2. When [safeGenerate] returns a text, that text is the answer of the
    last call it made, every earlier call of the run was rate limited, and
    the run cost one backoff per earlier call. *)
Theorem safeGenerate_returns_last_answer p : forall retries w text w',
  safeGenerate generateContent p retries w = (Returned text, w') ->
  exists n, (n <= retries)%nat /\
    (forall i, (i < n)%nat -> rate_limited (generateContent (calls w + i) p)) /\
    generateContent (calls w + n) p = Returned text /\
    w' = after_attempts p n w.
Proof.
  induction retries as [|r IH]; intros w text w' H; rewrite safeGenerate_unfold in H;
    destruct (generateContent (calls w) p) as [t|err] eqn:G.
  - injection H as <- <-. exists 0%nat. rewrite Nat.add_0_r, after_attempts_zero.
    repeat split; auto. intros i Hi; lia.
  - destruct (match status err with Some s => s =? 404 | None => false end); discriminate.
  - injection H as <- <-. exists 0%nat. rewrite Nat.add_0_r, after_attempts_zero.
    repeat split; auto; [lia | intros i Hi; lia].
  - destruct (match status err with Some s => s =? 404 | None => false end);
      [discriminate|].
    destruct (match status err with Some s => s =? 429 | None => false end) eqn:E;
      [|discriminate].
    apply status_is_429 in E.
    destruct (IH _ _ _ H) as (n & Hn & Hfail & Hok & Hw).
    exists (S n). cbn [slept calls] in Hfail, Hok.
    split; [lia|]. split; [|split].
    + intros [|i] Hi.
      * rewrite Nat.add_0_r. exists err. split; assumption.
      * replace (calls w + S i)%nat with (calls w + 1 + i)%nat by lia.
        apply Hfail. lia.
    + replace (calls w + S n)%nat with (calls w + 1 + n)%nat by lia. exact Hok.
    + rewrite Hw. apply after_attempts_succ.
Qed.

(** X3. For a signed-in caller [generateQuiz] never raises, whatever the
    generator and the parser do, and it leaves the store as it was. *)
Theorem generateQuiz_never_raises userId user w :
  signed_in userId user w ->
  exists v w',
    generateQuiz generateContent JSON_parse w = (Returned v, w') /\ db w' = db w.
Proof.
  intros Hin. rewrite (generateQuiz_run generateContent JSON_parse Hin).
  pose proof (safeGenerate_keeps_store (QuizPrompt (user_industry user)) 3
                (logged [Auth; Read TUser] w)) as [_ Hd].
  destruct (safeGenerate _ _ _ _) as [[text|e] w1]; cbn [snd] in Hd.
  - destruct (outcome_bind _ _); eexists; eexists; split; try reflexivity; exact Hd.
  - eexists; eexists; split; [reflexivity | exact Hd].
Qed.

(** The tip of [saveQuizResult], once the wrong questions print: every
    failure of the attempt ends in the fallback tip. *)
Lemma improvement_tip_run user wrong lines w :
  outcome_map (fun q => outcome_bind (ToString Number_toString (qr_question q))
                          (fun s => Returned ("- " ++ s)%string)) wrong
    = Returned lines ->
  improvement_tip generateContent JSON_parse Number_toString user wrong w
  = match safeGenerate generateContent
            (TipPrompt (user_industry user) (join newline lines)) 3 w with
    | (Returned text, w1) =>
        match outcome_bind (JSON_parse text) (fun j => field j "tip") with
        | Returned v => (Returned v, w1)
        | Thrown _ => (Returned (JStr fallback_tip), w1)
        end
    | (Thrown _, w1) => (Returned (JStr fallback_tip), w1)
    end.
Proof.
  intros Hl. unfold improvement_tip. unfold bind at 1. unfold lift at 1. rewrite Hl.
  unfold try_catch, bind.
  destruct (safeGenerate _ _ _ _) as [[text|e] w1]; [|reflexivity].
  unfold lift. destruct (JSON_parse text) as [j|e]; [|reflexivity].
  cbn [outcome_bind]. destruct (field j "tip"); reflexivity.
Qed.

(** [saveQuizResult] for a signed-in caller whose questions map. *)
Lemma saveQuizResult_run userId user w questions answers score results :
  signed_in userId user w ->
  map_questions questions answers = Returned results ->
  saveQuizResult generateContent JSON_parse Number_toString questions answers score w
  = let wrong := filter (fun q => negb (isCorrect q)) results in
    match (if (0 <? length wrong)%nat
           then improvement_tip generateContent JSON_parse Number_toString user wrong
           else ret JNull) (logged [Auth; Read TUser] w) with
    | (Returned tip, w2) =>
        let a := mkAssessment (next_id (db w2)) (user_id user) score results
                              "Technical" tip (clock w2) in
        (Returned a,
         mkWorld (session w2) (add_assessment (db w2) a) (clock w2) (calls w2)
                 (journal w2 ++ [Write TAssessment]))
    | (Thrown e, w2) => (Thrown e, w2)
    end.
Proof.
  intros Hin Hmap.
  unfold saveQuizResult. rewrite (enter _ Hin).
  unfold bind at 1. unfold lift at 1. rewrite Hmap. cbv zeta.
  unfold bind at 1.
  destruct ((if (0 <? length (filter (fun q => negb (isCorrect q)) results))%nat
             then improvement_tip generateContent JSON_parse Number_toString user
                    (filter (fun q => negb (isCorrect q)) results)
             else ret JNull) (logged [Auth; Read TUser] w)) as [[tip|e] w2];
    [|reflexivity].
  unfold db_assessment_create. run. reflexivity.
Qed.

(** X4. With a wrong answer and a tip generation that fails, the assessment
    is saved with the fallback tip. *)
Theorem failed_tip_is_replaced userId user w questions answers score results lines e :
  signed_in userId user w ->
  map_questions questions answers = Returned results ->
  filter (fun q => negb (isCorrect q)) results <> [] ->
  outcome_map (fun q => outcome_bind (ToString Number_toString (qr_question q))
                          (fun s => Returned ("- " ++ s)%string))
              (filter (fun q => negb (isCorrect q)) results)
    = Returned lines ->
  fst (safeGenerate generateContent
         (TipPrompt (user_industry user) (join newline lines)) 3
         (logged [Auth; Read TUser] w)) = Thrown e ->
  exists a w',
    saveQuizResult generateContent JSON_parse Number_toString questions answers score w
      = (Returned a, w')
    /\ improvementTip a = JStr fallback_tip
    /\ In a (assessments (db w')).
Proof.
  intros Hin Hmap Hwrong Hl Hfail.
  rewrite (@saveQuizResult_run userId user w _ _ score results Hin Hmap). cbv zeta.
  destruct (filter (fun q => negb (isCorrect q)) results) as [|q qs] eqn:F;
    [contradiction|].
  cbn [length Nat.ltb Nat.leb].
  rewrite (@improvement_tip_run user (q :: qs) lines (logged [Auth; Read TUser] w) Hl).
  destruct (safeGenerate _ _ _ _) as [[text|e'] w1]; cbn [fst] in Hfail; [discriminate|].
  eexists. eexists. split; [reflexivity|]. split; [reflexivity|].
  cbn [db add_assessment assessments]. apply in_or_app. right. left. reflexivity.
Qed.

(** X5. A [questions] argument that is no array makes [saveQuizResult] raise a
    TypeError right after the user lookup: no generator call, no write. *)
Theorem saveQuizResult_rejects_non_array userId user w questions answers score :
  signed_in userId user w ->
  (forall qs, questions <> JArr qs) ->
  exists e,
    saveQuizResult generateContent JSON_parse Number_toString questions answers score w
      = (Thrown e, logged [Auth; Read TUser] w)
    /\ kind e = KTypeError.
Proof.
  intros Hin Hq.
  unfold saveQuizResult. rewrite (enter _ Hin).
  unfold bind at 1. unfold lift at 1.
  destruct questions; try (eexists; split; reflexivity).
  exfalso. eapply Hq. reflexivity.
Qed.

End InterviewMore.

(** *** Ordering of the list queries *)

Lemma insert_by_perm {A} (before : A -> A -> bool) (x : A) (l : list A) :
  Permutation (insert_by before x l) (x :: l).
Proof.
  induction l as [|y l IH]; cbn; [reflexivity|].
  destruct (before y x); [|reflexivity].
  rewrite IH. apply perm_swap.
Qed.

Lemma order_by_perm {A} (before : A -> A -> bool) (l : list A) :
  Permutation (order_by before l) l.
Proof.
  unfold order_by.
  assert (H : forall acc, Permutation
                (fold_left (fun acc x => insert_by before x acc) l acc) (acc ++ l)).
  { induction l as [|x l IH]; intros acc; cbn.
    - rewrite app_nil_r. reflexivity.
    - rewrite IH, insert_by_perm. cbn. apply Permutation_middle. }
  apply (H []).
Qed.

Section Ordering.

Variable A : Type.
Variable before : A -> A -> bool.
Variable R : A -> A -> Prop.
Hypothesis before_R : forall a b, before a b = true -> R a b.
Hypothesis not_before_R : forall a b, before a b = false -> R b a.

Lemma insert_by_sorted x l : Sorted R l -> Sorted R (insert_by before x l).
Proof.
  induction l as [|y l IH]; intros Hs; cbn.
  - repeat constructor.
  - destruct (before y x) eqn:E.
    + inversion Hs as [|? ? Hl Hh]; subst. constructor; [apply IH, Hl|].
      destruct l as [|z l]; cbn.
      * constructor. apply before_R, E.
      * destruct (before z x); constructor.
        -- inversion Hh; assumption.
        -- apply before_R, E.
    + constructor; [exact Hs|]. constructor. apply not_before_R, E.
Qed.

Lemma order_by_sorted l : Sorted R (order_by before l).
Proof.
  unfold order_by.
  assert (H : forall acc, Sorted R acc ->
                Sorted R (fold_left (fun acc x => insert_by before x acc) l acc)).
  { induction l as [|x l IH]; intros acc Hacc; cbn; [exact Hacc|].
    apply IH, insert_by_sorted, Hacc. }
  apply H. constructor.
Qed.

End Ordering.

(** X6. [getAssessments] answers a signed-in caller with exactly their own
    assessments, oldest first, after two store reads and nothing else. *)
Theorem getAssessments_own_oldest_first userId user w :
  signed_in userId user w ->
  exists l,
    getAssessments w = (Returned l, logged [Auth; Read TUser; Read TAssessment] w)
    /\ Sorted (fun a b => assessment_createdAt a <= assessment_createdAt b) l
    /\ Permutation l (filter (fun a => (assessment_userId a =? user_id user)%nat)
                             (assessments (db w))).
Proof.
  intros Hin. unfold getAssessments. rewrite (enter _ Hin).
  unfold db_assessment_findMany. run.
  eexists. split; [|split].
  - unfold logged. cbn. rewrite <- ?app_assoc. reflexivity.
  - apply order_by_sorted with
      (before := fun y x => assessment_createdAt y <=? assessment_createdAt x);
      intros a b E; [apply Z.leb_le in E | apply Z.leb_gt in E]; lia.
  - apply order_by_perm.
Qed.

(** X7. [getCoverLetters] answers a signed-in caller with exactly their own
    letters, newest first. *)
Theorem getCoverLetters_own_newest_first userId user w :
  signed_in userId user w ->
  exists l,
    getCoverLetters w = (Returned l, logged [Auth; Read TUser; Read TCoverLetter] w)
    /\ Sorted (fun a b => letter_createdAt b <= letter_createdAt a) l
    /\ Permutation l (filter (fun c => (letter_userId c =? user_id user)%nat)
                             (coverLetters (db w))).
Proof.
  intros Hin. unfold getCoverLetters. rewrite (enter _ Hin).
  unfold db_coverLetter_findMany. run.
  eexists. split; [|split].
  - unfold logged. cbn. rewrite <- ?app_assoc. reflexivity.
  - apply order_by_sorted with
      (before := fun y x => letter_createdAt x <=? letter_createdAt y);
      intros a b E; [apply Z.leb_le in E | apply Z.leb_gt in E]; lia.
  - apply order_by_perm.
Qed.

Lemma letter_matches_spec id userId c :
  letter_matches id userId c = true <-> letter_id c = id /\ letter_userId c = userId.
Proof.
  unfold letter_matches. rewrite andb_true_iff, !Nat.eqb_eq. reflexivity.
Qed.

(** X8. [getCoverLetter id] shows a signed-in caller a letter only when it is
    stored under that id and belongs to them; it never writes. *)
Theorem getCoverLetter_own_only userId user w id :
  signed_in userId user w ->
  exists found,
    getCoverLetter id w
      = (Returned found, logged [Auth; Read TUser; Read TCoverLetter] w)
    /\ (forall c, found = Some c ->
          In c (coverLetters (db w)) /\ letter_id c = id /\
          letter_userId c = user_id user)
    /\ (found = None ->
          forall c, In c (coverLetters (db w)) ->
            letter_id c <> id \/ letter_userId c <> user_id user).
Proof.
  intros Hin. unfold getCoverLetter. rewrite (enter _ Hin).
  unfold db_coverLetter_findUnique. run.
  eexists. split; [|split].
  - unfold logged. cbn. rewrite <- ?app_assoc. reflexivity.
  - intros c Hc. apply find_some in Hc. destruct Hc as [Hi Hm].
    apply letter_matches_spec in Hm. tauto.
  - intros Hn c Hc.
    pose proof (find_none _ _ Hn c Hc) as Hm. cbn in Hm.
    destruct (Nat.eq_dec (letter_id c) id) as [E1|E1]; [|left; exact E1].
    destruct (Nat.eq_dec (letter_userId c) (user_id user)) as [E2|E2]; [|right; exact E2].
    assert (letter_matches id (user_id user) c = true) by (apply letter_matches_spec; tauto).
    congruence.
Qed.

(** [deleteCoverLetter] for a signed-in caller. *)
Lemma deleteCoverLetter_run userId user w id :
  signed_in userId user w ->
  deleteCoverLetter id w
  = let w1 := logged [Auth; Read TUser; Write TCoverLetter] w in
    match find (letter_matches id (user_id user)) (coverLetters (db w)) with
    | None => (Thrown (StoreError "Record to delete does not exist."), w1)
    | Some c =>
        (Returned c,
         mkWorld (session w)
                 (set_letters (db w)
                    (filter (fun x => negb (letter_matches id (user_id user) x))
                            (coverLetters (db w))))
                 (clock w) (calls w) (journal w1))
    end.
Proof.
  intros Hin. unfold deleteCoverLetter. rewrite (enter _ Hin).
  unfold db_coverLetter_delete. run.
  destruct (find _ _); cbn; unfold logged; cbn; rewrite <- ?app_assoc; reflexivity.
Qed.

(** X9. [deleteCoverLetter id] removes nothing but the caller's letter of that
    id: every letter of another user, and every letter with another id,
    is still stored afterwards, whatever the outcome; and when no letter
    of the caller has that id, the call raises and the store is as it
    was. *)
Theorem deleteCoverLetter_own_only userId user w id :
  signed_in userId user w ->
  let w' := snd (deleteCoverLetter id w) in
  (forall c, In c (coverLetters (db w)) ->
     letter_userId c <> user_id user \/ letter_id c <> id ->
     In c (coverLetters (db w')))
  /\ (forall c, In c (coverLetters (db w')) -> In c (coverLetters (db w)))
  /\ ((forall c, In c (coverLetters (db w)) ->
         letter_userId c <> user_id user \/ letter_id c <> id) ->
      exists e, fst (deleteCoverLetter id w) = Thrown e /\ db w' = db w).
Proof.
  intros Hin. cbv zeta. rewrite (deleteCoverLetter_run id Hin). cbv zeta.
  destruct (find (letter_matches id (user_id user)) (coverLetters (db w))) as [c0|] eqn:F;
    cbn [fst snd db logged set_letters coverLetters].
  - split; [|split].
    + intros c Hc Hother. apply filter_In. split; [exact Hc|].
      apply negb_true_iff. destruct (letter_matches id (user_id user) c) eqn:M;
        [|reflexivity].
      apply letter_matches_spec in M. tauto.
    + intros c Hc. apply filter_In in Hc. tauto.
    + intros Hnone. apply find_some in F. destruct F as [Hi Hm].
      apply letter_matches_spec in Hm. destruct (Hnone c0 Hi); tauto.
  - split; [|split]; auto.
    intros _. eexists. split; reflexivity.
Qed.

Lemma signed_in_same_users userId user w w' :
  signed_in userId user w ->
  session w' = session w -> users (db w') = users (db w) ->
  signed_in userId user w'.
Proof.
  intros (Hs & Hne & Hu) Es Eu. unfold signed_in. rewrite Es, Eu. tauto.
Qed.

Lemma find_filter_out {A} (f : A -> bool) (l : list A) :
  find f (filter (fun x => negb (f x)) l) = None.
Proof.
  induction l as [|x l IH]; cbn; [reflexivity|].
  destruct (f x) eqn:E; cbn; [exact IH|]. rewrite E. exact IH.
Qed.

(** X10. After a successful [deleteCoverLetter id], [getCoverLetter id] finds
    nothing. *)
Theorem deleted_letter_is_gone userId user w id c w' :
  signed_in userId user w ->
  deleteCoverLetter id w = (Returned c, w') ->
  getCoverLetter id w'
  = (Returned None, logged [Auth; Read TUser; Read TCoverLetter] w').
Proof.
  intros Hin Hdel. rewrite (deleteCoverLetter_run id Hin) in Hdel. cbv zeta in Hdel.
  destruct (find _ _) as [c0|] eqn:F; [|discriminate].
  injection Hdel as <- <-.
  assert (Hin' : signed_in userId user
            (mkWorld (session w)
               (set_letters (db w)
                  (filter (fun x => negb (letter_matches id (user_id user) x))
                          (coverLetters (db w))))
               (clock w) (calls w)
               (journal (logged [Auth; Read TUser; Write TCoverLetter] w)))).
  { eapply signed_in_same_users; [exact Hin | reflexivity | reflexivity]. }
  unfold getCoverLetter. rewrite (enter _ Hin').
  unfold db_coverLetter_findUnique. run.
  rewrite find_filter_out.
  unfold logged. cbn. rewrite <- ?app_assoc. reflexivity.
Qed.

Section Letters.

Variable generateContent : nat -> Prompt -> Outcome string.
Variable JSON_parse : string -> Outcome JsValue.

(** [generateCoverLetter] for a signed-in caller. *)
Lemma generateCoverLetter_run userId user w data :
  signed_in userId user w ->
  generateCoverLetter generateContent JSON_parse data w
  = let w1 := logged [Auth; Read TUser] w in
    match generateContent (calls w) (letter_prompt data user) with
    | Returned text =>
        let c := mkCoverLetter (next_id (db w)) (letter_content JSON_parse text)
                   (data_jobDescription data) (data_companyName data)
                   (data_jobTitle data) "completed" (user_id user) (clock w) in
        (Returned c,
         mkWorld (session w) (add_letter (db w) c) (clock w) (S (calls w))
                 (journal w ++ [Auth; Read TUser; Generate (letter_prompt data user);
                                Write TCoverLetter]))
    | Thrown _ =>
        (Thrown (Error_ "Failed to generate cover letter"),
         called (letter_prompt data user) w1)
    end.
Proof.
  intros Hin. unfold generateCoverLetter. rewrite (enter _ Hin).
  fold (letter_prompt data user).
  unfold model_generateContent, db_coverLetter_create. run.
  destruct (generateContent (calls w) (letter_prompt data user)) as [text|e]; cbn;
    [|unfold called, logged; cbn; rewrite <- ?app_assoc; reflexivity].
  unfold letter_content.
  destruct (JSON_parse text) as [p|e]; cbn.
  - destruct (field p "coverLetter") as [a|e]; cbn.
    + destruct (truthy a); cbn.
      * rewrite <- ?app_assoc. reflexivity.
      * destruct (field p "cover_letter"); cbn; rewrite <- ?app_assoc; reflexivity.
    + rewrite <- ?app_assoc. reflexivity.
  - rewrite <- ?app_assoc. reflexivity.
Qed.

(** X11. Once the generator answers and the content to store is a string (the
    text does not parse, or parses to [null], or the parsed [coverLetter]
    or [cover_letter] is a string), [generateCoverLetter] does not fail for
    a signed-in caller: it adds exactly one letter, with that content,
    marked "completed", owned by the caller and carrying the submitted
    form; the other tables are untouched. *)
Theorem generateCoverLetter_always_stores userId user w data text s :
  signed_in userId user w ->
  generateContent (calls w) (letter_prompt data user) = Returned text ->
  letter_content JSON_parse text = JStr s ->
  exists c w',
    generateCoverLetter generateContent JSON_parse data w = (Returned c, w')
    /\ coverLetters (db w') = coverLetters (db w) ++ [c]
    /\ content c = JStr s
    /\ letter_userId c = user_id user
    /\ letter_status c = "completed"
    /\ (jobTitle c, companyName c, jobDescription c)
       = (data_jobTitle data, data_companyName data, data_jobDescription data)
    /\ (JSON_parse text = Returned JNull -> s = text)
    /\ users (db w') = users (db w)
    /\ industryInsights (db w') = industryInsights (db w)
    /\ assessments (db w') = assessments (db w).
Proof.
  intros Hin Hg Hc. rewrite (generateCoverLetter_run data Hin), Hg. cbv zeta.
  eexists. eexists. split; [reflexivity|].
  cbn. rewrite Hc. repeat split.
  intros Hp. unfold letter_content in Hc. rewrite Hp in Hc. cbn in Hc.
  congruence.
Qed.


Lemma find_app_none {A} (f : A -> bool) (l : list A) (x : A) :
  (forall y, In y l -> f y = false) -> f x = true ->
  find f (l ++ [x]) = Some x.
Proof.
  intros Hl Hx. induction l as [|y l IH]; cbn.
  - rewrite Hx. reflexivity.
  - rewrite (Hl y (or_introl eq_refl)). apply IH.
    intros z Hz. apply Hl. right. exact Hz.
Qed.

(** X13. Round trip: when the ids in the letter table are all different from
    the next id to hand out, the letter [generateCoverLetter] returns is
    the one [getCoverLetter] finds under its id. *)
Theorem generated_letter_is_found userId user w data c w' :
  signed_in userId user w ->
  (forall c0, In c0 (coverLetters (db w)) -> letter_id c0 <> next_id (db w)) ->
  generateCoverLetter generateContent JSON_parse data w = (Returned c, w') ->
  getCoverLetter (letter_id c) w'
  = (Returned (Some c), logged [Auth; Read TUser; Read TCoverLetter] w').
Proof.
  intros Hin Hfresh Hgen.
  rewrite (generateCoverLetter_run data Hin) in Hgen. cbv zeta in Hgen.
  destruct (generateContent (calls w) (letter_prompt data user)) as [text|cause];
    [|discriminate].
  injection Hgen as <- <-.
  match goal with |- getCoverLetter _ ?W = _ =>
    assert (Hin' : signed_in userId user W)
      by (eapply signed_in_same_users; [exact Hin | reflexivity | reflexivity])
  end.
  unfold getCoverLetter. rewrite (enter _ Hin').
  unfold db_coverLetter_findUnique. run.
  rewrite find_app_none.
  - unfold logged. cbn. rewrite <- ?app_assoc. reflexivity.
  - intros y Hy. unfold letter_matches. cbn.
    apply andb_false_iff. left. apply Nat.eqb_neq. apply Hfresh, Hy.
  - unfold letter_matches. cbn. rewrite !Nat.eqb_refl. reflexivity.
Qed.

End Letters.

Section Composition.

Lemma keeps_store_all_or_nothing {A} (c : M A) :
  keeps_store c -> all_or_nothing c.
Proof. intros H w e w' E. specialize (H w). rewrite E in H. exact H. Qed.

Lemma all_or_nothing_bind {A B} (c : M A) (k : A -> M B) :
  keeps_store c -> (forall a, all_or_nothing (k a)) -> all_or_nothing (bind c k).
Proof.
  intros Hc Hk w e w' E. unfold bind in E. specialize (Hc w).
  destruct (c w) as [[a|e0] w1]; cbn [snd] in Hc.
  - rewrite <- Hc. eapply Hk. exact E.
  - injection E as <- <-. exact Hc.
Qed.

Lemma all_or_nothing_then {A B} (c : M A) (k : A -> M B) :
  all_or_nothing c -> (forall a, never_raises (k a)) -> all_or_nothing (bind c k).
Proof.
  intros Hc Hk w e w' E. unfold bind in E.
  destruct (c w) as [[a|e0] w1] eqn:C.
  - destruct (Hk a w1) as (b & w2 & Hb). rewrite Hb in E. discriminate.
  - injection E as <- <-. eapply Hc. exact C.
Qed.

Lemma all_or_nothing_rethrow {A} (c : M A) (wrap : JsError -> JsError) :
  all_or_nothing c -> all_or_nothing (try_catch c (fun e => throw (wrap e))).
Proof.
  intros Hc w e w' E. unfold try_catch in E.
  destruct (c w) as [[a|e0] w1] eqn:C; [discriminate|].
  unfold throw in E. injection E as <- <-. eapply Hc. exact C.
Qed.

(** A transaction that raises has written nothing. *)
Lemma db_transaction_all_or_nothing {A} (body : M A) :
  all_or_nothing (db_transaction body).
Proof.
  intros w e w' E. unfold db_transaction in E. revert E. run.
  destruct (body _) as [[a|e0] w1]; cbn; intros E; [discriminate|].
  injection E as <- <-. reflexivity.
Qed.

Lemma keeps_store_lift {A} (o : Outcome A) : keeps_store (lift o).
Proof. intros w. reflexivity. Qed.

Lemma keeps_store_ret {A} (a : A) : keeps_store (ret a).
Proof. intros w. reflexivity. Qed.

Lemma keeps_store_emit e : keeps_store (emit e).
Proof. intros w. reflexivity. Qed.

Lemma keeps_store_bind {A B} (c : M A) (k : A -> M B) :
  keeps_store c -> (forall a, keeps_store (k a)) -> keeps_store (bind c k).
Proof.
  intros Hc Hk w. unfold bind. specialize (Hc w).
  destruct (c w) as [[a|e0] w1]; cbn [snd] in *; [|exact Hc].
  rewrite Hk. exact Hc.
Qed.

End Composition.

Section Profile.

Variable generateContent : nat -> Prompt -> Outcome string.
Variable JSON_parse : string -> Outcome JsValue.
Variable Number_toString : Q -> string.
Variable checkUser : M (option User).

Lemma generateAIInsights_keeps_store industry :
  keeps_store (generateAIInsights generateContent JSON_parse Number_toString industry).
Proof. intros w. rewrite generateAIInsights_world. reflexivity. Qed.



(** X15. Dashboard enum mapping: for a raw value that is absent, [null], or a
    string that names no property of [Object.prototype], the mapped field
    is a member of the allowed set. *)
Theorem dashboard_enum_is_member fs :
  let demand := match assoc "demandLevel" fs with Some v => v | None => JUndefined end in
  let outlook := match assoc "marketOutlook" fs with Some v => v | None => JUndefined end in
  enum_raw demand = true ->
  enum_raw outlook = true ->
  (forall s, demand = JStr s \/ outlook = JStr s -> mem_string s Object_prototype = false) ->
  (exists u, map_enum Number_toString (JObj fs) "demandLevel" demandLevelMap "MEDIUM"
               = Returned (JStr u) /\ In u ["HIGH"; "MEDIUM"; "LOW"])
  /\
  (exists u, map_enum Number_toString (JObj fs) "marketOutlook" marketOutlookMap "NEUTRAL"
               = Returned (JStr u) /\ In u ["POSITIVE"; "NEUTRAL"; "NEGATIVE"]).
Proof.
  intros demand outlook Hd Ho Hproto. split.
  - unfold map_enum. cbn [field outcome_bind]. fold demand.
    destruct demand as [| | | |s| | |] eqn:E; try discriminate; cbn.
    + eexists; split; [reflexivity | cbn; auto].
    + eexists; split; [reflexivity | cbn; auto].
    + rewrite demandLevelMap_lookup. rewrite (Hproto s (or_introl eq_refl)).
      destruct (s =? "High")%string; [eexists; split; [reflexivity | cbn; auto]|].
      destruct (s =? "Medium")%string; [eexists; split; [reflexivity | cbn; auto]|].
      destruct (s =? "Low")%string; eexists; split; try reflexivity; cbn; auto.
  - unfold map_enum. cbn [field outcome_bind]. fold outlook.
    destruct outlook as [| | | |s| | |] eqn:E; try discriminate; cbn.
    + eexists; split; [reflexivity | cbn; auto].
    + eexists; split; [reflexivity | cbn; auto].
    + rewrite marketOutlookMap_lookup. rewrite (Hproto s (or_intror eq_refl)).
      destruct (s =? "Positive")%string; [eexists; split; [reflexivity | cbn; auto]|].
      destruct (s =? "Neutral")%string; [eexists; split; [reflexivity | cbn; auto]|].
      destruct (s =? "Negative")%string; eexists; split; try reflexivity; cbn; auto.
Qed.

(** [updateUser] up to the call of [checkUser]. *)
Lemma updateUser_run userId w data :
  identified userId w ->
  updateUser generateContent JSON_parse Number_toString checkUser data w
  = bind checkUser (fun user =>
      match user with
      | None => throw (Error_ "User registration failed")
      | Some _ =>
          try_catch
            (industryInsight <- db_industryInsight_findUnique (data_industry data) ;;
             insights <-
               match industryInsight with
               | Some _ => ret None
               | None =>
                   i <- generateAIInsights generateContent JSON_parse Number_toString
                          (Some (data_industry data)) ;;
                   demand <- lift (call_toUpperCase (demandLevel i)) ;;
                   outlook <- lift (call_toUpperCase (marketOutlook i)) ;;
                   ret (Some (mkPayload (salaryRanges i) (growthRate i) demand
                                (topSkills i) outlook (keyTrends i)
                                (recommendedSkills i)))
               end ;;
             result <-
               db_transaction
                 (created <-
                    match industryInsight, insights with
                    | None, Some i =>
                        t <- Date_now ;;
                        next <- construct The_Date [t + TTL] ;;
                        r <- db_industryInsight_create (data_industry data)
                               (mkInsightWrite i next None []) ;;
                        ret (Some r)
                    | _, _ => ret industryInsight
                    end ;;
                  updatedUser <- db_user_update userId data ;;
                  ret (updatedUser, created)) ;;
             emit (Revalidate "/") ;;
             ret result)
            (fun error =>
               throw (Error_ ("Failed to update profile: " ++ message error)))
      end) (logged [Auth] w).
Proof.
  intros [Hs Hne].
  destruct w as [s d c n j]; cbn in Hs; subst s.
  unfold updateUser, require_identity, auth. unfold bind at 1 2 3.
  unfold emit, no_identity. cbn [session db clock calls journal].
  destruct (userId =? "")%string eqn:E; [apply String.eqb_eq in E; contradiction|].
  reflexivity.
Qed.

(** X16. [updateUser] is all or nothing: when it raises for an identified
    caller, the store is the one [checkUser] left, be it the generator,
    the enum conversion or the transaction that failed. *)
Theorem updateUser_all_or_nothing userId w data e w' :
  identified userId w ->
  updateUser generateContent JSON_parse Number_toString checkUser data w
    = (Thrown e, w') ->
  db w' = db (snd (checkUser (logged [Auth] w))).
Proof.
  intros Hid H. rewrite (updateUser_run data Hid) in H.
  unfold bind at 1 in H.
  destruct (checkUser (logged [Auth] w)) as [[[u|]|e0] w2]; cbn [snd].
  - revert H. apply all_or_nothing_rethrow.
    apply all_or_nothing_bind.
    { intros w0. reflexivity. }
    intros industryInsight.
    apply all_or_nothing_bind.
    { destruct industryInsight; [apply keeps_store_ret|].
      apply keeps_store_bind; [apply generateAIInsights_keeps_store|].
      intros i. apply keeps_store_bind; [apply keeps_store_lift|].
      intros d. apply keeps_store_bind; [apply keeps_store_lift|].
      intros o. apply keeps_store_ret. }
    intros insights.
    apply all_or_nothing_then; [apply db_transaction_all_or_nothing|].
    intros result w0. eexists. eexists. reflexivity.
  - unfold throw in H. injection H as <- <-. reflexivity.
  - injection H as <- <-. reflexivity.
Qed.

Lemma find_user_updated userId u u' us :
  find_user userId us = Some u ->
  clerkUserId u' = userId ->
  find_user userId
    (map (fun x => if (clerkUserId x =? userId)%string then u' else x) us) = Some u'.
Proof.
  intros Hf Hu'. unfold find_user in *.
  induction us as [|x us IH]; cbn in *; [discriminate|].
  destruct (clerkUserId x =? userId)%string eqn:E.
  - cbn. rewrite Hu', String.eqb_refl. reflexivity.
  - cbn. rewrite E. apply IH, Hf.
Qed.

(** X17. When the insight of the chosen industry is already stored,
    [updateUser] does not call the generator and does not touch the
    insight table: it rewrites the caller's row with the submitted profile
    and returns it with the stored insight. *)
Theorem updateUser_reuses_stored_insight userId w data u0 w2 u r :
  identified userId w ->
  checkUser (logged [Auth] w) = (Returned (Some u0), w2) ->
  find_user userId (users (db w2)) = Some u ->
  find_insight (data_industry data) (industryInsights (db w2)) = Some r ->
  exists w',
    updateUser generateContent JSON_parse Number_toString checkUser data w
      = (Returned (updated_user u data, Some r), w')
    /\ calls w' = calls w2
    /\ industryInsights (db w') = industryInsights (db w2)
    /\ find_user userId (users (db w')) = Some (updated_user u data)
    /\ user_insight (db w') (updated_user u data) = Some r.
Proof.
  intros Hid Hc Hu Hr. rewrite (updateUser_run data Hid).
  unfold bind at 1. rewrite Hc.
  unfold db_industryInsight_findUnique, db_transaction, db_user_update. run.
  rewrite Hr. cbn. rewrite Hu. cbn.
  eexists. split; [reflexivity|]. cbn. repeat split.
  - apply find_user_updated with (u := u); [exact Hu|].
    unfold find_user in Hu. apply find_some in Hu. destruct Hu as [_ E].
    apply String.eqb_eq in E. exact E.
  - exact Hr.
Qed.

Lemma TTL_positive : 0 < TTL.
Proof. reflexivity. Qed.

(** X18. Composition: when [updateUser] has created the insight of a new
    industry, the record it returns is keyed by that industry and expires
    one TTL later, and the caller's next [getIndustryInsights] is a cache
    hit that returns this very record without calling the generator. *)
Theorem updateUser_then_dashboard_hits userId w data u0 w2 u u' r w' :
  identified userId w ->
  checkUser (logged [Auth] w) = (Returned (Some u0), w2) ->
  session w2 = session w ->
  find_user userId (users (db w2)) = Some u ->
  find_insight (data_industry data) (industryInsights (db w2)) = None ->
  updateUser generateContent JSON_parse Number_toString checkUser data w
    = (Returned (u', Some r), w') ->
  industry r = data_industry data /\ nextUpdate r = clock w2 + TTL /\
  u' = updated_user u data /\
  calls w' = S (calls w2) /\
  getIndustryInsights generateContent JSON_parse Number_toString w'
    = (Returned (Some r), logged [Auth; Read TUser] w').
Proof.
  intros Hid Hc Hs2 Hu Hnone H. rewrite (updateUser_run data Hid) in H.
  unfold bind at 1 in H. rewrite Hc in H.
  assert (Hkey : clerkUserId u = userId).
  { unfold find_user in Hu. apply find_some in Hu. destruct Hu as [_ E].
    apply String.eqb_eq in E. exact E. }
  destruct Hid as [Hs Hne]. rewrite <- Hs2 in Hs.
  destruct w2 as [s2 d2 c2 n2 j2]. cbn [session db clock calls] in *. subst s2.
  revert H.
  unfold db_industryInsight_findUnique. unfold try_catch, bind at 1 2 3.
  unfold emit, get_db, ret. cbn [session db clock calls journal].
  rewrite Hnone. unfold bind at 1 2.
  match goal with |- context [generateAIInsights _ _ _ _ ?W] =>
    pose proof (generateAIInsights_world generateContent JSON_parse Number_toString
                  (Some (data_industry data)) W) as Hw;
    destruct (generateAIInsights generateContent JSON_parse Number_toString
                (Some (data_industry data)) W) as [[i|e] w3]
  end; [|discriminate].
  cbn [snd] in Hw. subst w3.
  unfold bind at 1. unfold lift at 1.
  destruct (call_toUpperCase (demandLevel i)) as [dl|e]; [|discriminate].
  unfold bind at 1. unfold lift at 1.
  destruct (call_toUpperCase (marketOutlook i)) as [mo|e]; [|discriminate].
  unfold db_transaction, db_industryInsight_create, check_write, create_new,
    db_user_update, construct. run.
  pose proof Hu as Hu'. unfold find_user in Hu'.
  rewrite Hnone. cbn. rewrite Hu'. cbn.
  intros H. injection H as <- <- <-.
  repeat split.
  match goal with |- getIndustryInsights _ _ _ ?W = _ =>
    assert (Hin' : signed_in userId (updated_user u data) W)
  end.
  { split; [reflexivity|]. split; [assumption|].
    cbn [db users set_users].
    apply find_user_updated with (u := u); [exact Hu | exact Hkey]. }
  unfold getIndustryInsights. rewrite (enter_include _ Hin').
  unfold user_insight. cbn [db industryInsights updated_user user_industry set_users].
  match goal with |- context [find_insight ?k (?l ++ [?x])] =>
    assert (Hfi : find_insight k (l ++ [x]) = Some x)
  end.
  { unfold find_insight. apply find_app_none.
    - intros y Hy. exact (find_none _ _ Hnone y Hy).
    - cbn. apply String.eqb_refl. }
  rewrite Hfi. unfold construct. run.
  match goal with |- context [(?a <=? ?b)] => destruct (a <=? b) eqn:E end;
    [apply Z.leb_le in E; lia|].
  reflexivity.
Qed.

(** X19. [getUserOnboardingStatus] never raises and never writes; it answers
    [isOnboarded: true] exactly when the caller has an identity, a row,
    and a non-empty industry in that row. *)
Theorem onboarding_status_spec w :
  exists b w',
    getUserOnboardingStatus w = (Returned (b, None), w')
    /\ db w' = db w /\ calls w' = calls w
    /\ (b = true <->
        exists userId u i,
          identified userId w /\ find_user userId (users (db w)) = Some u /\
          user_industry u = Some i /\ i <> "").
Proof.
  destruct w as [s d c n j].
  unfold getUserOnboardingStatus, auth, db_user_findUnique. run.
  destruct s as [uid|]; cbn.
  - destruct (uid =? "")%string eqn:E; cbn.
    + eexists. eexists. split; [reflexivity|]. repeat split; try discriminate.
      intros (userId & u & i & [Hs Hne] & _). cbn in Hs. injection Hs as <-.
      apply String.eqb_eq in E. contradiction.
    + apply String.eqb_neq in E.
      eexists. eexists. split; [reflexivity|]. repeat split.
      * intros Hb. destruct (find_user uid (users d)) as [u|] eqn:F; [|discriminate].
        destruct (user_industry u) as [i|] eqn:I; [|discriminate].
        exists uid, u, i. repeat split; auto.
        intros ->. discriminate.
      * intros (userId & u & i & [Hs Hne] & Hu & Hi & Hi'). cbn in Hs, Hu.
        injection Hs as <-. rewrite Hu, Hi.
        destruct (i =? "")%string eqn:E'; [apply String.eqb_eq in E'; contradiction|].
        reflexivity.
  - eexists. eexists. split; [reflexivity|]. repeat split; try discriminate.
    intros (userId & u & i & [Hs _] & _). discriminate.
Qed.

End Profile.

Section WeeklyMore.

Variable generateContent : nat -> Prompt -> Outcome string.
Variable JSON_parse : string -> Outcome JsValue.

Lemma same_subjects_refl s : same_subjects s s.
Proof. repeat split. Qed.

Lemma same_subjects_trans s1 s2 s3 :
  same_subjects s1 s2 -> same_subjects s2 s3 -> same_subjects s1 s3.
Proof.
  intros (A1 & A2 & A3 & A4 & A5 & A6) (B1 & B2 & B3 & B4 & B5 & B6).
  repeat split; congruence.
Qed.

Lemma update_insight_same_subjects key d s :
  same_subjects s (set_insights s (update_insight key d (industryInsights s))).
Proof.
  unfold same_subjects, set_insights, update_insight. cbn. repeat split.
  - rewrite map_map. apply map_ext. intros r.
    destruct (industry r =? key)%string; reflexivity.
  - rewrite map_map. apply map_ext. intros r.
    destruct (industry r =? key)%string; reflexivity.
Qed.

Lemma refresh_industry_same_subjects key w :
  same_subjects (db w) (db (snd (refresh_industry generateContent JSON_parse key w))).
Proof.
  unfold refresh_industry, model_generateContent. run.
  destruct (generateContent (calls w) (WeeklyInsightsPrompt key)) as [text|e]; cbn;
    [|apply same_subjects_refl].
  destruct (JSON_parse _) as [d|e]; cbn; [|apply same_subjects_refl].
  destruct (weekly_payload d) as [p|e]; cbn; [|apply same_subjects_refl].
  unfold db_industryInsight_update, check_write, update_existing, construct. run.
  destruct (find_insight key (industryInsights (db w))); cbn;
    [apply update_insight_same_subjects | apply same_subjects_refl].
Qed.

Lemma for_each_same_subjects : forall keys w,
  same_subjects (db w)
    (db (snd (for_each keys (refresh_industry generateContent JSON_parse) w))).
Proof.
  induction keys as [|k keys IH]; intros w; cbn; [apply same_subjects_refl|].
  unfold bind.
  pose proof (refresh_industry_same_subjects k w) as H1.
  destruct (refresh_industry generateContent JSON_parse k w) as [[[]|e] w1];
    cbn [snd] in *; [|exact H1].
  eapply same_subjects_trans; [exact H1 | apply IH].
Qed.

(** X20. Whatever the generator and the parser do, and whether the job returns
    or raises, the weekly job neither adds nor removes a subject: the
    insight table keeps its keys and ids in order, and the user,
    assessment and cover-letter tables are untouched. *)
Theorem weekly_job_keeps_subjects w :
  same_subjects (db w)
    (db (snd (generateIndustryInsights generateContent JSON_parse w))).
Proof.
  unfold generateIndustryInsights, db_industryInsight_findMany.
  unfold bind at 1 2 3. unfold emit, get_db, ret. cbn [session db clock calls journal].
  match goal with |- context [for_each ?l ?f ?W] =>
    exact (for_each_same_subjects l W)
  end.
Qed.

Lemma for_each_all_skipped : forall (l : list IndustryInsight) w,
  (forall i r, nth_error l i = Some r ->
     exists t e,
       generateContent (calls w + i) (WeeklyInsightsPrompt (industry r)) = Returned t
       /\ JSON_parse (trim (strip_fences true t)) = Thrown e) ->
  exists w',
    for_each (map industry l) (refresh_industry generateContent JSON_parse) w
      = (Returned tt, w')
    /\ db w' = db w /\ calls w' = (calls w + length l)%nat /\ clock w' = clock w.
Proof.
  induction l as [|r l IH]; intros w H; cbn [map for_each length].
  - exists w. repeat split. lia.
  - destruct (H 0%nat r eq_refl) as (t & e & Hg & Hp).
    rewrite Nat.add_0_r in Hg.
    unfold bind. rewrite (refresh_industry_skips generateContent JSON_parse _ _ Hg Hp).
    destruct (IH (called (WeeklyInsightsPrompt (industry r)) w)) as (w' & Hrun & Hd & Hc & Hk).
    { intros i r' Hi. cbn [called calls].
      replace (S (calls w) + i)%nat with (calls w + S i)%nat by lia.
      apply (H (S i) r'). exact Hi. }
    exists w'. split; [exact Hrun|]. cbn [called db calls clock] in Hd, Hc, Hk.
    repeat split; [exact Hd | lia | exact Hk].
Qed.

(** X21. When every answer of the run is unparsable, the weekly job still
    returns normally: it has asked the generator once per subject, in table
    order, and the store is exactly as it was. *)
Theorem weekly_job_survives_all_unparsable w :
  (forall i r, nth_error (industryInsights (db w)) i = Some r ->
     exists t e,
       generateContent (calls w + i) (WeeklyInsightsPrompt (industry r)) = Returned t
       /\ JSON_parse (trim (strip_fences true t)) = Thrown e) ->
  exists w',
    generateIndustryInsights generateContent JSON_parse w = (Returned tt, w')
    /\ db w' = db w
    /\ calls w' = (calls w + length (industryInsights (db w)))%nat.
Proof.
  intros H.
  unfold generateIndustryInsights, db_industryInsight_findMany.
  unfold bind at 1 2 3. unfold emit, get_db, ret. cbn [session db clock calls journal].
  match goal with |- context [for_each _ _ ?W] =>
    destruct (for_each_all_skipped (industryInsights (db w)) W) as (w' & Hrun & Hd & Hc & _)
  end.
  { cbn [calls]. exact H. }
  exists w'. split; [exact Hrun|]. cbn [db calls] in Hd, Hc. split; assumption.
Qed.

End WeeklyMore.

Lemma truthy_or_else_array v : truthy (or_else v (JArr [])) = true.
Proof. unfold or_else. destruct (truthy v) eqn:E; [exact E | reflexivity]. Qed.

(** X23. Whenever the weekly normalisation returns, every column of the
    payload is determined by the parsed value: each of the four list
    columns is the parsed property, or an empty array when that is absent
    or falsy; the growth rate is the parsed property, or 0; each enum
    column is the upper-cased parsed string when that is allowed, else the
    default. So no list column is left absent (all four are truthy) and
    both enum columns are members of their allowed sets. *)
Theorem weekly_payload_fills_defaults insights p :
  weekly_payload insights = Returned p ->
  (salaryRanges p = or_else (own insights "salaryRanges") (JArr []) /\
   topSkills p = or_else (own insights "topSkills") (JArr []) /\
   keyTrends p = or_else (own insights "keyTrends") (JArr []) /\
   recommendedSkills p = or_else (own insights "recommendedSkills") (JArr []) /\
   growthRate p = or_else (own insights "growthRate") (JNum 0) /\
   demandLevel p
   = normalized_enum (own insights "demandLevel") ["HIGH"; "MEDIUM"; "LOW"] "MEDIUM" /\
   marketOutlook p
   = normalized_enum (own insights "marketOutlook")
                     ["POSITIVE"; "NEUTRAL"; "NEGATIVE"] "NEUTRAL") /\
  truthy (salaryRanges p) = true /\ truthy (topSkills p) = true /\
  truthy (keyTrends p) = true /\ truthy (recommendedSkills p) = true /\
  (truthy (growthRate p) = true \/ growthRate p = JNum 0) /\
  (exists u, demandLevel p = JStr u /\ In u ["HIGH"; "MEDIUM"; "LOW"]) /\
  (exists u, marketOutlook p = JStr u /\ In u ["POSITIVE"; "NEUTRAL"; "NEGATIVE"]).
Proof.
  intros H. split.
  { rewrite (weekly_payload_closed_form _ H). repeat split. }
  revert H. unfold weekly_payload. intros H.
  destruct (field insights "demandLevel") as [rd|]; cbn [outcome_bind] in H; [|discriminate].
  destruct (normalizeEnum rd ["HIGH"; "MEDIUM"; "LOW"] "MEDIUM") as [vd|] eqn:Ed;
    cbn [outcome_bind] in H; [|discriminate].
  destruct (assignable insights "demandLevel"); cbn [outcome_bind] in H; [|discriminate].
  destruct (field insights "marketOutlook") as [ro|]; cbn [outcome_bind] in H; [|discriminate].
  destruct (normalizeEnum ro ["POSITIVE"; "NEUTRAL"; "NEGATIVE"] "NEUTRAL") as [vo|] eqn:Eo;
    cbn [outcome_bind] in H; [|discriminate].
  destruct (assignable insights "marketOutlook"); cbn [outcome_bind] in H; [|discriminate].
  destruct (payload_of insights vd vo) as [q|] eqn:Eq; cbn [outcome_bind] in H; [|discriminate].
  injection H as <-. cbn [salaryRanges topSkills keyTrends recommendedSkills growthRate
                          demandLevel marketOutlook].
  assert (Hq : demandLevel q = vd /\ marketOutlook q = vo).
  { unfold payload_of in Eq.
    repeat (match type of Eq with
            | outcome_bind ?o _ = _ => destruct o; cbn [outcome_bind] in Eq; [|discriminate]
            end).
    injection Eq as <-. split; reflexivity. }
  destruct Hq as [-> ->].
  repeat split; try apply truthy_or_else_array.
  - unfold or_else. destruct (truthy (growthRate q)) eqn:E; [left; exact E | right; reflexivity].
  - eapply normalizeEnum_member; [|exact Ed]. cbn; auto.
  - eapply normalizeEnum_member; [|exact Eo]. cbn; auto.
Qed.

(** X24. The weekly enum normalisation is idempotent: a normalised value
    normalises to itself. *)
Theorem normalizeEnum_idempotent value v :
  (normalizeEnum value ["HIGH"; "MEDIUM"; "LOW"] "MEDIUM" = Returned v ->
   normalizeEnum v ["HIGH"; "MEDIUM"; "LOW"] "MEDIUM" = Returned v)
  /\
  (normalizeEnum value ["POSITIVE"; "NEUTRAL"; "NEGATIVE"] "NEUTRAL" = Returned v ->
   normalizeEnum v ["POSITIVE"; "NEUTRAL"; "NEGATIVE"] "NEUTRAL" = Returned v).
Proof.
  split; intros H.
  - destruct (@normalizeEnum_member value ["HIGH"; "MEDIUM"; "LOW"] "MEDIUM" v) as (u & -> & Hu);
      [cbn; auto | exact H |].
    cbn in Hu. destruct Hu as [<-|[<-|[<-|[]]]]; reflexivity.
  - destruct (@normalizeEnum_member value ["POSITIVE"; "NEUTRAL"; "NEGATIVE"] "NEUTRAL" v)
      as (u & -> & Hu); [cbn; auto | exact H |].
    cbn in Hu. destruct Hu as [<-|[<-|[<-|[]]]]; reflexivity.
Qed.

(** *** Cleaning of the generator text *)

Lemma string_app_nil_r (s : string) : (s ++ "")%string = s.
Proof. induction s as [|c s IH]; cbn; [reflexivity | rewrite IH; reflexivity]. Qed.

Lemma string_app_assoc (a b c : string) :
  ((a ++ b) ++ c)%string = (a ++ (b ++ c))%string.
Proof. induction a as [|x a IH]; cbn; [reflexivity | rewrite IH; reflexivity]. Qed.

Lemma rev_string_acc : forall s acc,
  rev_string acc s = (rev_string "" s ++ acc)%string.
Proof.
  induction s as [|c s IH]; intros acc; cbn; [reflexivity|].
  rewrite (IH (String c acc)), (IH (String c "")).
  rewrite string_app_assoc. reflexivity.
Qed.

Lemma rev_string_app a b :
  rev_string "" (a ++ b) = (rev_string "" b ++ rev_string "" a)%string.
Proof.
  induction a as [|c a IH]; cbn.
  - rewrite string_app_nil_r. reflexivity.
  - rewrite (rev_string_acc (a ++ b) (String c "")), IH,
      (rev_string_acc a (String c "")).
    rewrite string_app_assoc. reflexivity.
Qed.

Lemma rev_string_involutive s : rev_string "" (rev_string "" s) = s.
Proof.
  induction s as [|c s IH]; cbn; [reflexivity|].
  rewrite (rev_string_acc s (String c "")), rev_string_app, IH. reflexivity.
Qed.

Lemma trimEnd_drops_space s c :
  is_space c = true -> trimEnd (s ++ String c "") = trimEnd s.
Proof.
  intros H. unfold trimEnd. rewrite rev_string_app. cbn. rewrite H. reflexivity.
Qed.

Lemma trimEnd_keeps_last s c :
  is_space c = false -> trimEnd (s ++ String c "") = (s ++ String c "")%string.
Proof.
  intros H. unfold trimEnd. rewrite rev_string_app. cbn. rewrite H.
  change (String c (rev_string "" s)) with (String c "" ++ rev_string "" s)%string.
  rewrite rev_string_app, rev_string_involutive. reflexivity.
Qed.

Lemma trimStart_length s : (String.length (trimStart s) <= String.length s)%nat.
Proof.
  induction s as [|c s IH]; cbn; [lia|].
  destruct (is_space c); cbn; lia.
Qed.

Lemma trimStart_fixed_head c s :
  trimStart (String c s) = String c s -> is_space c = false.
Proof.
  cbn. destruct (is_space c); [|reflexivity].
  intros H. pose proof (trimStart_length s) as L. rewrite H in L. cbn in L. lia.
Qed.

Lemma trimStart_app s t :
  trimStart s = s -> s <> "" -> trimStart (s ++ t) = (s ++ t)%string.
Proof.
  destruct s as [|c s]; [congruence|].
  intros H _. apply trimStart_fixed_head in H. cbn. rewrite H. reflexivity.
Qed.

Lemma trim_drops_newline body :
  trimStart body = body -> trimEnd body = body ->
  trim (body ++ newline) = body.
Proof.
  intros Hs He. unfold trim.
  destruct body as [|c b].
  - reflexivity.
  - rewrite trimStart_app; [|exact Hs|discriminate].
    unfold newline. rewrite trimEnd_drops_space; [exact He | reflexivity].
Qed.

Lemma prefix_empty s : prefix "" s = true.
Proof. destruct s; reflexivity. Qed.

Lemma fence_match_other b c s :
  Ascii.eqb c backtick = false -> fence_match b (String c s) = None.
Proof.
  intros H. unfold fence_match, fence. cbn [prefix].
  destruct (ascii_dec backtick c) as [E|E]; [|reflexivity].
  subst c. rewrite Ascii.eqb_refl in H. discriminate.
Qed.

Lemma strip_fences_no_backtick b : forall s rest,
  no_backtick s = true ->
  strip_fences_from b 0 (s ++ rest) = (s ++ strip_fences_from b 0 rest)%string.
Proof.
  induction s as [|c s IH]; intros rest H; cbn [append]; [reflexivity|].
  cbn [no_backtick] in H. apply andb_prop in H. destruct H as [Hc Hs].
  apply negb_true_iff in Hc.
  cbn [strip_fences_from]. rewrite (fence_match_other b s _ Hc) || rewrite fence_match_other by exact Hc.
  rewrite IH by exact Hs. reflexivity.
Qed.

(** X25. Cleaning leaves a text without backticks and without surrounding
    whitespace as it is, and unwraps it exactly from the usual code fence,
    a fence line tagged [json] before it and a fence line after it, on the
    weekly path and on the dashboard path alike. *)
Theorem cleaning_unwraps_the_fence body :
  no_backtick body = true ->
  trimStart body = body ->
  trimEnd body = body ->
  let fenced := (fence ++ "json" ++ newline ++ body ++ newline ++ fence)%string in
  trim (strip_fences true body) = body /\
  trim (strip_fences false (trim body)) = body /\
  trim (strip_fences true fenced) = body /\
  trim (strip_fences false (trim fenced)) = body.
Proof.
  intros Hb Hs He fenced.
  assert (Hplain : forall b, strip_fences b body = body).
  { intros b. unfold strip_fences.
    rewrite <- (string_app_nil_r body) at 1.
    rewrite strip_fences_no_backtick by exact Hb.
    cbn. apply string_app_nil_r. }
  assert (Hhead : forall b rest,
            strip_fences_from b 0 (fence ++ "json" ++ newline ++ rest)
            = ((if b then "" else newline) ++ strip_fences_from b 0 rest)%string).
  { intros b rest. destruct b; cbn; rewrite ?prefix_empty; reflexivity. }
  assert (Htrim : trim body = body).
  { unfold trim. rewrite Hs. exact He. }
  assert (Htail : forall b, strip_fences_from b 0 (body ++ newline ++ fence)
                            = (body ++ newline)%string).
  { intros b. rewrite strip_fences_no_backtick by exact Hb.
    destruct b; reflexivity. }
  split; [|split; [|split]].
  - rewrite Hplain. exact Htrim.
  - rewrite Htrim, Hplain. exact Htrim.
  - unfold fenced, strip_fences.
    transitivity (trim (body ++ newline)); [|apply trim_drops_newline; assumption].
    f_equal. rewrite Hhead, Htail. reflexivity.
  - assert (Hf : trim fenced = fenced).
    { unfold trim.
      assert (Hstart : trimStart fenced = fenced) by reflexivity.
      rewrite Hstart.
      assert (Hshape : fenced
                = ((fence ++ "json" ++ newline ++ body ++ newline
                    ++ String backtick (String backtick "")) ++ String backtick "")%string).
      { unfold fenced. rewrite !string_app_assoc. reflexivity. }
      rewrite Hshape. apply trimEnd_keeps_last. reflexivity. }
    rewrite Hf. unfold fenced, strip_fences.
    transitivity (trim (newline ++ body ++ newline)).
    + f_equal. rewrite Hhead, Htail. reflexivity.
    + unfold trim. cbn [newline append trimStart].
      change (is_space (ascii_of_nat 10)) with true. cbv iota.
      apply (trim_drops_newline Hs He).
Qed.

Section AcrossActions.

Variable generateContent : nat -> Prompt -> Outcome string.
Variable JSON_parse : string -> Outcome JsValue.
Variable Number_toString : Q -> string.
Variable checkUser : M (option User).

Lemma keeps_store_throw {A} (e : JsError) : keeps_store (@throw A e).
Proof. intros w. reflexivity. Qed.

Lemma keeps_store_try {A} (body : M A) (handler : JsError -> M A) :
  keeps_store body -> (forall e, keeps_store (handler e)) ->
  keeps_store (try_catch body handler).
Proof.
  intros Hb Hh w. unfold try_catch. specialize (Hb w).
  destruct (body w) as [[a|e] w1]; cbn [snd] in *; [exact Hb|].
  rewrite Hh. exact Hb.
Qed.

Lemma keeps_store_require_identity : keeps_store require_identity.
Proof.
  intros w. unfold require_identity, auth. run.
  destruct (no_identity (session w)); [reflexivity|].
  destruct (session w); reflexivity.
Qed.

Lemma keeps_store_require_user userId : keeps_store (require_user userId).
Proof.
  intros w. unfold require_user, db_user_findUnique. run.
  destruct (find_user userId (users (db w))); reflexivity.
Qed.

Lemma keeps_store_safeGenerate p retries :
  keeps_store (safeGenerate generateContent p retries).
Proof. intros w. apply safeGenerate_keeps_store. Qed.

Lemma keeps_store_generateQuiz : keeps_store (generateQuiz generateContent JSON_parse).
Proof.
  unfold generateQuiz.
  apply keeps_store_bind; [apply keeps_store_require_identity|]. intros userId.
  apply keeps_store_bind; [apply keeps_store_require_user|]. intros user.
  apply keeps_store_try; [|intros e; apply keeps_store_ret].
  apply keeps_store_bind; [apply keeps_store_safeGenerate|]. intros result.
  apply keeps_store_bind; [apply keeps_store_lift|]. intros quiz.
  apply keeps_store_lift.
Qed.

Lemma keeps_store_getUserOnboardingStatus : keeps_store getUserOnboardingStatus.
Proof.
  intros w. unfold getUserOnboardingStatus, auth, db_user_findUnique. run.
  destruct (no_identity (session w)); [reflexivity|].
  destruct (session w); reflexivity.
Qed.

(** X26. The actions that are meant to read only do read only: whoever calls
    and whatever the generator answers, [generateQuiz], [getAssessments],
    [getCoverLetters], [getCoverLetter] and [getUserOnboardingStatus] leave
    every table of the store as it was. *)
Theorem read_only_actions_keep_the_store a w :
  read_only a = true ->
  db (snd (perform generateContent JSON_parse Number_toString checkUser a w)) = db w.
Proof.
  intros Hro. revert w.
  change (keeps_store (perform generateContent JSON_parse Number_toString checkUser a)).
  destruct a; try discriminate; unfold perform;
    (apply keeps_store_bind; [|intros r; apply keeps_store_ret]).
  - apply keeps_store_generateQuiz.
  - unfold getAssessments.
    apply keeps_store_bind; [apply keeps_store_require_identity|]. intros userId.
    apply keeps_store_bind; [apply keeps_store_require_user|]. intros user.
    apply keeps_store_try; [|intros e; apply keeps_store_throw].
    intros w. reflexivity.
  - unfold getCoverLetters.
    apply keeps_store_bind; [apply keeps_store_require_identity|]. intros userId.
    apply keeps_store_bind; [apply keeps_store_require_user|]. intros user.
    intros w. reflexivity.
  - unfold getCoverLetter.
    apply keeps_store_bind; [apply keeps_store_require_identity|]. intros userId.
    apply keeps_store_bind; [apply keeps_store_require_user|]. intros user.
    intros w. reflexivity.
  - apply keeps_store_getUserOnboardingStatus.
Qed.

(** X27. A caller with an identity but without a row in the user table is
    stopped by every action that starts with the row lookup: it raises
    "User not found" after the identity lookup and that one read, before
    any generator call and any write. *)
Theorem unknown_user_is_stopped userId a w :
  identified userId w ->
  find_user userId (users (db w)) = None ->
  needs_row a = true ->
  perform generateContent JSON_parse Number_toString checkUser a w
  = (Thrown (Error_ "User not found"), logged [Auth; Read TUser] w).
Proof.
  intros [Hs Hne] Hnone Hrow.
  assert (Hid : forall A (k : string -> M A),
            (u <- require_identity ;; k u) w = k userId (logged [Auth] w)).
  { intros A k. destruct w as [s d c n j]; cbn in Hs; subst s.
    unfold require_identity, auth. run.
    destruct (userId =? "")%string eqn:E; [apply String.eqb_eq in E; contradiction|].
    reflexivity. }
  assert (Hrowless : forall A (k : User -> M A),
            (x <- require_user userId ;; k x) (logged [Auth] w)
            = (Thrown (Error_ "User not found"), logged [Auth; Read TUser] w)).
  { intros A k. unfold require_user, db_user_findUnique. run.
    rewrite Hnone. cbn. unfold logged. cbn. rewrite <- ?app_assoc. reflexivity. }
  destruct a; try discriminate; unfold perform; unfold bind at 1;
    unfold generateQuiz, saveQuizResult, getAssessments, generateCoverLetter,
      getCoverLetters, getCoverLetter, deleteCoverLetter;
    try (rewrite Hid, Hrowless; reflexivity).
  unfold getIndustryInsights. rewrite Hid.
  unfold db_user_findUnique_include. run.
  rewrite Hnone. cbn. unfold logged. cbn. rewrite <- ?app_assoc. reflexivity.
Qed.

End AcrossActions.

(** *** Instances *)

Lemma safeGenerate_returns_last_answer_witness :
  exists n, (n <= 3)%nat /\
    (forall i, (i < n)%nat ->
       rate_limited (retry_once (calls first_visit + i)%nat (QuizPrompt None))) /\
    retry_once (calls first_visit + n)%nat (QuizPrompt None) = Returned "ok" /\
    after_attempts (QuizPrompt None) 1 first_visit
    = after_attempts (QuizPrompt None) n first_visit.
Proof.
  apply (@safeGenerate_returns_last_answer retry_once (QuizPrompt None) 3 first_visit
           "ok" (after_attempts (QuizPrompt None) 1 first_visit)).
  reflexivity.
Defined.

Lemma generateQuiz_never_raises_witness :
  exists v w',
    generateQuiz (scripted [Returned "not json"]) (parse_table []) first_visit
      = (Returned v, w')
    /\ db w' = db first_visit.
Proof.
  apply (@generateQuiz_never_raises (scripted [Returned "not json"]) (parse_table [])
           "user_alice" alice first_visit).
  repeat split. discriminate.
Defined.

Lemma failed_tip_is_replaced_witness :
  exists a w',
    saveQuizResult (scripted [Thrown model_not_found]) (parse_table []) print_integer
      two_questions (JArr [JStr "2"; JStr "5"]) (JNum 50) first_visit
      = (Returned a, w')
    /\ improvementTip a = JStr fallback_tip
    /\ In a (assessments (db w')).
Proof.
  eapply (@failed_tip_is_replaced (scripted [Thrown model_not_found]) (parse_table [])
            print_integer "user_alice" alice first_visit two_questions
            (JArr [JStr "2"; JStr "5"]) (JNum 50)).
  - repeat split. discriminate.
  - reflexivity.
  - cbn. discriminate.
  - reflexivity.
  - reflexivity.
Defined.

Lemma saveQuizResult_rejects_non_array_witness :
  exists e,
    saveQuizResult (scripted []) (parse_table []) print_integer
      JNull (JArr []) (JNum 0) first_visit
      = (Thrown e, logged [Auth; Read TUser] first_visit)
    /\ kind e = KTypeError.
Proof.
  apply (@saveQuizResult_rejects_non_array (scripted []) (parse_table []) print_integer
           "user_alice" alice first_visit JNull (JArr []) (JNum 0)).
  - repeat split. discriminate.
  - intros qs. discriminate.
Defined.

Lemma getAssessments_own_oldest_first_witness :
  exists l,
    getAssessments office = (Returned l, logged [Auth; Read TUser; Read TAssessment] office)
    /\ Sorted (fun a b => assessment_createdAt a <= assessment_createdAt b) l
    /\ Permutation l [old_assessment 6%nat 1%nat 300; old_assessment 8%nat 1%nat 100].
Proof.
  apply (@getAssessments_own_oldest_first "user_alice" alice office).
  repeat split. discriminate.
Defined.

Lemma getCoverLetters_own_newest_first_witness :
  exists l,
    getCoverLetters office = (Returned l, logged [Auth; Read TUser; Read TCoverLetter] office)
    /\ Sorted (fun a b => letter_createdAt b <= letter_createdAt a) l
    /\ Permutation l [letter_of 2%nat 1%nat 100; letter_of 4%nat 1%nat 300].
Proof.
  apply (@getCoverLetters_own_newest_first "user_alice" alice office).
  repeat split. discriminate.
Defined.

(** Alice asks for Bob's letter and is shown nothing. *)
Lemma getCoverLetter_own_only_witness :
  getCoverLetter 3%nat office
  = (Returned None, logged [Auth; Read TUser; Read TCoverLetter] office).
Proof.
  destruct (@getCoverLetter_own_only "user_alice" alice office 3%nat)
    as (found & Hrun & Hsome & _).
  - repeat split. discriminate.
  - rewrite Hrun. destruct found as [c|]; [|reflexivity].
    destruct (Hsome c eq_refl) as (Hin & Hid & Hown).
    cbn in Hin. destruct Hin as [<-|[<-|[<-|[]]]]; cbn in Hid, Hown; discriminate.
Defined.

(** Alice tries to delete Bob's letter: an error, and the table is as it
    was. *)
Lemma deleteCoverLetter_own_only_witness :
  exists e,
    fst (deleteCoverLetter 3%nat office) = Thrown e
    /\ db (snd (deleteCoverLetter 3%nat office)) = db office.
Proof.
  destruct (@deleteCoverLetter_own_only "user_alice" alice office 3%nat) as (_ & _ & H).
  - repeat split. discriminate.
  - apply H. intros c Hc. cbn in Hc.
    destruct Hc as [<-|[<-|[<-|[]]]]; cbn; [right | left | right]; discriminate.
Defined.

Lemma deleted_letter_is_gone_witness :
  exists w',
    deleteCoverLetter 2%nat office = (Returned (letter_of 2%nat 1%nat 100), w')
    /\ getCoverLetter 2%nat w'
       = (Returned None, logged [Auth; Read TUser; Read TCoverLetter] w').
Proof.
  eexists. split; [lazy; reflexivity|].
  eapply (@deleted_letter_is_gone "user_alice" alice office 2%nat).
  - repeat split. discriminate.
  - reflexivity.
Defined.

Lemma generateCoverLetter_always_stores_witness :
  exists c w',
    generateCoverLetter (scripted [Returned letter_text]) (parse_table [])
                        letter_form first_visit = (Returned c, w')
    /\ coverLetters (db w') = coverLetters (db first_visit) ++ [c]
    /\ content c = JStr letter_text
    /\ letter_userId c = user_id alice
    /\ letter_status c = "completed".
Proof.
  destruct (@generateCoverLetter_always_stores (scripted [Returned letter_text])
              (parse_table []) "user_alice" alice first_visit letter_form letter_text
              letter_text)
    as (c & w' & Hrun & Hadd & Hcontent & Hown & Hst & _).
  - repeat split. discriminate.
  - reflexivity.
  - reflexivity.
  - exists c, w'. repeat split; assumption.
Defined.


Lemma generated_letter_is_found_witness :
  exists c w',
    generateCoverLetter (scripted [Returned letter_text]) (parse_table [])
                        letter_form first_visit = (Returned c, w')
    /\ getCoverLetter (letter_id c) w'
       = (Returned (Some c), logged [Auth; Read TUser; Read TCoverLetter] w').
Proof.
  eexists. eexists. split; [lazy; reflexivity|].
  eapply (@generated_letter_is_found (scripted [Returned letter_text]) (parse_table [])
            "user_alice" alice first_visit letter_form).
  - repeat split. discriminate.
  - intros c0 [].
  - reflexivity.
Defined.


Lemma dashboard_enum_is_member_witness :
  map_enum print_integer capitalised_document "demandLevel" demandLevelMap "MEDIUM"
    = Returned (JStr "HIGH")
  /\ exists u,
       map_enum print_integer capitalised_document "marketOutlook" marketOutlookMap
                "NEUTRAL" = Returned (JStr u)
       /\ In u ["POSITIVE"; "NEUTRAL"; "NEGATIVE"].
Proof.
  split; [reflexivity|].
  apply (@dashboard_enum_is_member print_integer
           [("salaryRanges", JArr []); ("growthRate", JNum 5);
            ("demandLevel", JStr "High"); ("topSkills", JArr [JStr "Rocq"]);
            ("marketOutlook", JStr "Positive"); ("keyTrends", JArr []);
            ("recommendedSkills", JArr [])]).
  - reflexivity.
  - reflexivity.
  - intros s [H|H]; injection H as <-; reflexivity.
Defined.

Lemma updateUser_all_or_nothing_witness :
  exists e w',
    updateUser (scripted [Thrown too_many_requests]) (parse_table []) print_integer
      check_session new_profile first_visit = (Thrown e, w')
    /\ db w' = db first_visit.
Proof.
  eexists. eexists. split; [lazy; reflexivity|].
  apply (@updateUser_all_or_nothing (scripted [Thrown too_many_requests]) (parse_table [])
           print_integer check_session "user_alice" first_visit new_profile _ _
           ltac:(split; [reflexivity | discriminate]) eq_refl).
Defined.

Lemma updateUser_reuses_stored_insight_witness :
  exists w',
    updateUser (scripted []) (parse_table []) print_integer check_session
      new_profile fresh_visit
      = (Returned (updated_user alice new_profile, Some tech_insight), w')
    /\ calls w' = 0%nat
    /\ industryInsights (db w') = [tech_insight].
Proof.
  destruct (@updateUser_reuses_stored_insight (scripted []) (parse_table []) print_integer
              check_session "user_alice" fresh_visit new_profile alice
              (logged [Auth] fresh_visit) alice tech_insight)
    as (w' & Hrun & Hcalls & Hins & _).
  - split; [reflexivity | discriminate].
  - reflexivity.
  - reflexivity.
  - reflexivity.
  - exists w'. repeat split; assumption.
Defined.

Lemma updateUser_then_dashboard_hits_witness :
  exists u' r w',
    updateUser (scripted [Returned capitalised_text])
      (parse_table [(capitalised_text, capitalised_document)]) print_integer
      check_session new_profile first_visit = (Returned (u', Some r), w')
    /\ industry r = "tech" /\ nextUpdate r = 5000 + TTL
    /\ getIndustryInsights (scripted [Returned capitalised_text])
         (parse_table [(capitalised_text, capitalised_document)]) print_integer w'
       = (Returned (Some r), logged [Auth; Read TUser] w').
Proof.
  destruct (updateUser (scripted [Returned capitalised_text])
              (parse_table [(capitalised_text, capitalised_document)]) print_integer
              check_session new_profile first_visit) as [[[u' [r|]]|e] w'] eqn:Hrun;
    try (exfalso; vm_compute in Hrun; discriminate).
  exists u', r, w'. split; [reflexivity|].
  destruct (@updateUser_then_dashboard_hits (scripted [Returned capitalised_text])
              (parse_table [(capitalised_text, capitalised_document)]) print_integer
              check_session "user_alice" first_visit new_profile alice
              (logged [Auth] first_visit) alice u' r w')
    as (Hk & Hn & _ & _ & Hhit).
  - split; [reflexivity | discriminate].
  - reflexivity.
  - reflexivity.
  - reflexivity.
  - reflexivity.
  - exact Hrun.
  - split; [exact Hk|]. split; [exact Hn | exact Hhit].
Defined.

Lemma weekly_job_survives_all_unparsable_witness :
  exists w',
    generateIndustryInsights (scripted [Returned "a"; Returned "b"; Returned "c"])
                             (parse_table []) sunday = (Returned tt, w')
    /\ db w' = db sunday /\ calls w' = 3%nat.
Proof.
  apply (@weekly_job_survives_all_unparsable
           (scripted [Returned "a"; Returned "b"; Returned "c"]) (parse_table []) sunday).
  intros i r Hi.
  destruct i as [|[|[|i]]]; cbn in Hi; try (injection Hi as <-);
    try (eexists; eexists; split; reflexivity).
  destruct i; discriminate.
Defined.

Lemma weekly_payload_fills_defaults_witness :
  exists p,
    weekly_payload bare_document = Returned p
    /\ p = mkPayload (JArr []) (JNum 2) (JStr "MEDIUM") (JArr []) (JStr "NEUTRAL")
                     (JArr []) (JArr [])
    /\ truthy (salaryRanges p) = true /\ truthy (topSkills p) = true
    /\ truthy (keyTrends p) = true /\ truthy (recommendedSkills p) = true.
Proof.
  eexists. split; [lazy; reflexivity|].
  destruct (@weekly_payload_fills_defaults bare_document _ eq_refl)
    as (_ & H1 & H2 & H3 & H4 & _).
  split; [reflexivity|]. repeat split; assumption.
Defined.

Lemma normalizeEnum_idempotent_witness :
  normalizeEnum (JStr "high") ["HIGH"; "MEDIUM"; "LOW"] "MEDIUM" = Returned (JStr "HIGH")
  /\ normalizeEnum (JStr "HIGH") ["HIGH"; "MEDIUM"; "LOW"] "MEDIUM" = Returned (JStr "HIGH").
Proof.
  split; [reflexivity|].
  apply (proj1 (@normalizeEnum_idempotent (JStr "high") (JStr "HIGH"))).
  reflexivity.
Defined.

Lemma cleaning_unwraps_the_fence_witness :
  trim (strip_fences true (fence ++ "json" ++ newline ++ plain_json ++ newline ++ fence))
    = plain_json
  /\ trim (strip_fences false
             (trim (fence ++ "json" ++ newline ++ plain_json ++ newline ++ fence)))
     = plain_json.
Proof.
  destruct (@cleaning_unwraps_the_fence plain_json eq_refl eq_refl eq_refl)
    as (_ & _ & Hweekly & Hdash).
  split; [exact Hweekly | exact Hdash].
Defined.

Lemma read_only_actions_keep_the_store_witness :
  db (snd (perform (scripted []) (parse_table []) print_integer check_session
                   GetCoverLetters office)) = db office.
Proof.
  apply (@read_only_actions_keep_the_store (scripted []) (parse_table []) print_integer
           check_session GetCoverLetters office).
  reflexivity.
Defined.

Lemma unknown_user_is_stopped_witness :
  perform (scripted [Returned "unused"]) (parse_table []) print_integer check_session
          GenerateQuiz stranger_visit
  = (Thrown (Error_ "User not found"), logged [Auth; Read TUser] stranger_visit).
Proof.
  apply (@unknown_user_is_stopped (scripted [Returned "unused"]) (parse_table [])
           print_integer check_session "user_carol" GenerateQuiz stranger_visit).
  - split; [reflexivity | discriminate].
  - reflexivity.
  - reflexivity.
Defined.
